(** * Loan eligibility engine: a shallow embedding of [loans/services.py],
    [loans/serializers.py], [loans/models.py] and [loans/views.py].

    Python values are modelled as follows.
    - [Decimal] is its exact rational value ([Q]).  Every Decimal operation
      the code performs (sum, product, division by 100000, comparison) is
      exact below the 28 digits of the default decimal context, which the
      12-digit columns of [models.py] never reach; [quantize] is the one
      rounding operation and is written out, with its [InvalidOperation].
    - [float] is IEEE-754 binary64, taken from the standard library's
      [SpecFloat] (precision 53, emax 1024).
    - [int] is [Z].
    - exceptions are the [Raise] side of [result]. *)

From Stdlib Require Import ZArith QArith Qround Qabs Qminmax Lia Lqa Bool List String.
From Stdlib Require Import SpecFloat.
Import ListNotations.

Local Open Scope Z_scope.

(** ** Exceptions and the error monad *)

Inductive exn : Type :=
| ZeroDivisionError
| OverflowError
| InvalidOperation
| ValueError
| DoesNotExist.

Inductive result (A : Type) : Type :=
| Ok (a : A)
| Raise (e : exn).

Arguments Ok {A} a.
Arguments Raise {A} e.

Definition bind {A B : Type} (m : result A) (k : A -> result B) : result B :=
  match m with
  | Ok a => k a
  | Raise e => Raise e
  end.

Notation "x <- m ;; k" := (bind m (fun x => k))
  (at level 61, m at next level, right associativity).

(** ** decimal.Decimal *)

Module Dec.

Definition Decimal : Type := Q.

Definition lt (a b : Decimal) : bool := negb (Qle_bool b a).
Definition gt (a b : Decimal) : bool := lt b a.

(** Python's [max(a, b)]: the first argument unless the second is
    strictly greater. *)
Definition max (a b : Decimal) : Decimal := if gt b a then b else a.

(** [ROUND_HALF_UP]: to the nearest integer, ties away from zero. *)
Definition round_half_up (q : Q) : Z :=
  if Qle_bool 0 q then Qfloor (q + (1 # 2)) else - Qfloor (- q + (1 # 2)).

(** The default context carries 28 significant digits. *)
Definition context_prec : Z := 28.

(** [q.quantize(quantum, rounding=ROUND_HALF_UP)] for a quantum that is a
    power of ten ([Decimal('0.01')], [Decimal('1')]): the multiple of the
    quantum nearest to [q]; [InvalidOperation] when the coefficient of the
    result does not fit the context precision. *)
Definition quantize (q quantum : Decimal) : result Decimal :=
  let n := round_half_up (q / quantum) in
  if 10 ^ context_prec <=? Z.abs n then Raise InvalidOperation
  else Ok (inject_Z n * quantum)%Q.

(** rest_framework's [DecimalField(max_digits, decimal_places, min_value)]
    accepts a value with at most [decimal_places] decimals and at most
    [max_digits - decimal_places] digits before the point. *)
Definition field_valid (max_digits decimal_places : Z)
           (min_value : option Decimal) (q : Decimal) : bool :=
  let scaled := (q * inject_Z (10 ^ decimal_places))%Q in
  Qeq_bool scaled (inject_Z (Qfloor scaled))
  && negb (Qle_bool (inject_Z (10 ^ (max_digits - decimal_places))) (Qabs q))
  && match min_value with
     | Some m => Qle_bool m q
     | None => true
     end.

End Dec.

(** ** Python floats: IEEE-754 binary64 *)

Module Float.

Definition prec : Z := 53.
Definition emax : Z := 1024.

Definition float : Type := spec_float.

(** The correctly rounded binary64 of a rational: the IEEE division of
    numerator by denominator.  This is [float(d)] for a Decimal [d] and
    [float(n)] for an int [n]. *)
Definition of_Q (q : Q) : float :=
  match Qnum q with
  | Z0 => S754_zero false
  | Zpos n =>
      SFdiv prec emax (S754_finite false n 0) (S754_finite false (Qden q) 0)
  | Zneg n =>
      SFdiv prec emax (S754_finite true n 0) (S754_finite false (Qden q) 0)
  end.

Definition of_Z (n : Z) : float := of_Q (inject_Z n).

Definition is_zero (x : float) : bool :=
  match x with S754_zero _ => true | _ => false end.

Definition is_finite (x : float) : bool :=
  match x with S754_zero _ | S754_finite _ _ _ => true | _ => false end.

(** The exact value of a finite float (0 for the others). *)
Definition to_Q (x : float) : Q :=
  match x with
  | S754_finite s m e =>
      let n := if s then Zneg m else Zpos m in
      match e with
      | Zneg p => n # (2 ^ p)
      | _ => inject_Z (n * 2 ^ e)
      end
  | _ => 0%Q
  end.

(** The conversion of an int operand: [OverflowError] beyond the range. *)
Definition of_int (n : Z) : result float :=
  let r := of_Z n in
  if is_finite r then Ok r else Raise OverflowError.

Definition add : float -> float -> float := SFadd prec emax.
Definition sub : float -> float -> float := SFsub prec emax.
Definition mul : float -> float -> float := SFmul prec emax.

(** [x / y]: Python raises where IEEE returns an infinity or a NaN. *)
Definition div (x y : float) : result float :=
  if is_zero y then Raise ZeroDivisionError else Ok (SFdiv prec emax x y).

(** [a / b] on two ints: the correctly rounded quotient. *)
Definition int_truediv (a b : Z) : result float :=
  if b =? 0 then Raise ZeroDivisionError
  else
    let r := of_Q (inject_Z a / inject_Z b) in
    if is_finite r then Ok r else Raise OverflowError.

(** [x ** n] for a float [x] and an int [n].  CPython calls the C
    library's [pow]; for a finite [x] it is modelled by the correctly
    rounded power, with CPython's exceptions.  The C library may differ
    from the correctly rounded value in the last bit; the statements below
    that evaluate [pow] are far from any rounding boundary of the cent. *)
Definition pow (x : float) (n : Z) : result float :=
  _ <- of_int n ;;
  if n =? 0 then Ok (of_Z 1)
  else match x with
  | S754_nan => Ok S754_nan
  | S754_infinity s =>
      let s' := s && Z.odd n in
      Ok (if 0 <? n then S754_infinity s' else S754_zero s')
  | S754_zero s =>
      if n <? 0 then Raise ZeroDivisionError else Ok (S754_zero (s && Z.odd n))
  | S754_finite _ _ _ =>
      let r := of_Q (to_Q x ^ n) in
      if is_finite r then Ok r else Raise OverflowError
  end.

(** *** [str(x)]: the shortest decimal literal that reads back as [x] *)

(** The largest [e] with [10 ^ e <= q], for [0 < q]: an estimate from the
    bit lengths, corrected by comparison. *)
Definition ilog10 (q : Q) : Z :=
  let est := (Z.log2 (Qnum q) - Z.log2 (Zpos (Qden q))) * 1233 / 4096 in
  if Qle_bool (10 ^ (est + 1)) q then est + 1
  else if Qle_bool (10 ^ est) q then est
  else if Qle_bool (10 ^ (est - 1)) q then est - 1
  else est - 2.

(** Among the decimals of [nd] significant digits next to [v], one that
    rounds to [x], the nearer first and, at equal distance, the one with
    the even last digit; with none, one more digit is tried.  Seventeen
    digits always suffice for a binary64. *)
Fixpoint shortest (fuel : nat) (nd : Z) (x : float) (v : Q) (e10 : Z) : Q :=
  match fuel with
  | O => v
  | S fuel' =>
      let scale := (10 ^ (nd - 1 - e10))%Q in
      let lo := Qfloor (v * scale) in
      let dlo := (inject_Z lo / scale)%Q in
      let dhi := (inject_Z (lo + 1) / scale)%Q in
      let lo_ok := SFeqb (of_Q dlo) x in
      let hi_ok := SFeqb (of_Q dhi) x in
      let lo_nearer :=
        negb (Qle_bool (dhi - v) (v - dlo))
        || (Qeq_bool (v - dlo) (dhi - v) && Z.even lo) in
      if lo_ok && (lo_nearer || negb hi_ok) then dlo
      else if hi_ok then dhi
      else shortest fuel' (nd + 1) x v e10
  end.

(** The value of the literal [str(x)]; [None] for ['inf'] and ['nan']. *)
Definition repr_value (x : float) : option Q :=
  match x with
  | S754_zero _ => Some 0%Q
  | S754_finite s m e =>
      let ax := S754_finite false m e in
      let v := to_Q ax in
      let d := Qred (shortest 17 1 ax v (ilog10 v)) in
      Some (if s then (- d)%Q else d)
  | _ => None
  end.

End Float.

(** ** Python numbers: the credit score is an [int] or a [float] *)

Module Num.

Inductive number : Type :=
| Int (n : Z)
| Flt (x : Float.float).

(** The float of an int operand; the ints that meet a float below are the
    literals 40 and 20 and component scores of at most 40. *)
Definition to_float (a : number) : Float.float :=
  match a with
  | Int n => Float.of_Z n
  | Flt x => x
  end.

(** [a + b] and [a * b]: exact on two ints, binary64 otherwise. *)
Definition add (a b : number) : number :=
  match a, b with
  | Int x, Int y => Int (x + y)
  | _, _ => Flt (Float.add (to_float a) (to_float b))
  end.

Definition mul (a b : number) : number :=
  match a, b with
  | Int x, Int y => Int (x * y)
  | _, _ => Flt (Float.mul (to_float a) (to_float b))
  end.

(** An int against a float is compared by exact value, as CPython does. *)
Definition compare_int_float (n : Z) (x : Float.float) : option comparison :=
  match x with
  | S754_nan => None
  | S754_infinity s => Some (if s then Gt else Lt)
  | _ => Some (inject_Z n ?= Float.to_Q x)%Q
  end.

Definition compare (a b : number) : option comparison :=
  match a, b with
  | Int x, Int y => Some (x ?= y)
  | Flt x, Flt y => SFcompare x y
  | Int x, Flt y => compare_int_float x y
  | Flt x, Int y => option_map CompOpp (compare_int_float y x)
  end.

Definition lt (a b : number) : bool :=
  match compare a b with Some Lt => true | _ => false end.
Definition gt (a b : number) : bool := lt b a.
Definition le (a b : number) : bool :=
  match compare a b with Some (Lt | Eq) => true | _ => false end.

(** Python's [min(a, b)] and [max(a, b)] keep the first argument unless
    the second is strictly smaller (greater). *)
Definition min (a b : number) : number := if lt b a then b else a.
Definition max (a b : number) : number := if gt b a then b else a.

End Num.

(** ** datetime.date *)

Module Date.

Record date : Type := { year : Z; month : Z; day : Z }.

Definition leb (a b : date) : bool :=
  (year a <? year b)
  || ((year a =? year b)
      && ((month a <? month b)
          || ((month a =? month b) && (day a <=? day b)))).

Definition is_leap (y : Z) : bool :=
  (y mod 4 =? 0) && (negb (y mod 100 =? 0) || (y mod 400 =? 0)).

Definition days_in_month (y m : Z) : Z :=
  if m =? 2 then (if is_leap y then 29 else 28)
  else if (m =? 4) || (m =? 6) || (m =? 9) || (m =? 11) then 30
  else 31.

(** [d + relativedelta(months=n)]: the month moves by [n], the year
    follows, the day is clipped to the length of the target month;
    [ValueError] outside the years 1..9999. *)
Definition add_months (d : date) (n : Z) : result date :=
  let total := month d - 1 + n in
  let y := year d + total / 12 in
  let m := total mod 12 + 1 in
  if (y <? 1) || (9999 <? y) then Raise ValueError
  else Ok {| year := y; month := m; day := Z.min (day d) (days_in_month y m) |}.

End Date.

(** ** models.py *)

Module Customer.

(** The columns of table [customer]; the two timestamps are left out. *)
Record t : Type := {
  customer_id : Z;
  first_name : string;
  last_name : string;
  age : Z;
  phone_number : Z;
  monthly_salary : Dec.Decimal;
  approved_limit : Dec.Decimal;
  current_debt : Dec.Decimal
}.

Definition with_current_debt (c : t) (d : Dec.Decimal) : t :=
  {| customer_id := customer_id c; first_name := first_name c;
     last_name := last_name c; age := age c;
     phone_number := phone_number c; monthly_salary := monthly_salary c;
     approved_limit := approved_limit c; current_debt := d |}.

End Customer.

Module Loan.

(** The columns of table [loan]; [customer] holds the foreign key. *)
Record t : Type := {
  loan_id : Z;
  customer : Z;
  loan_amount : Dec.Decimal;
  tenure : Z;
  interest_rate : Dec.Decimal;
  monthly_repayment : Dec.Decimal;
  emis_paid_on_time : Z;
  start_date : Date.date;
  end_date : Date.date
}.

(** [emis_paid_on_time = models.PositiveIntegerField(default=0)] *)
Definition emis_paid_on_time_default : Z := 0.

(** The property [total_emis]. *)
Definition total_emis (l : t) : Z := tenure l.

(** The property [repayments_left]; [today] is the reading of
    [timezone.now().date()]. *)
Definition repayments_left (today : Date.date) (l : t) : Z :=
  if negb (Date.leb today (end_date l)) then 0
  else
    let months_left :=
      (Date.year (end_date l) - Date.year today) * 12
      + (Date.month (end_date l) - Date.month today) in
    Z.max 0 months_left.

End Loan.

(** The storage: the two tables, in insertion order. *)
Record Db : Type := { customers : list Customer.t; loans : list Loan.t }.

(** [Customer.objects.get(customer_id=id)] *)
Definition Customer_get (db : Db) (id : Z) : result Customer.t :=
  match find (fun c => Customer.customer_id c =? id) (customers db) with
  | Some c => Ok c
  | None => Raise DoesNotExist
  end.

(** [Customer.objects.filter(customer_id=id).exists()] *)
Definition Customer_exists (db : Db) (id : Z) : bool :=
  existsb (fun c => Customer.customer_id c =? id) (customers db).

(** [Loan.objects.filter(customer=customer)] *)
Definition Loan_filter_customer (db : Db) (c : Customer.t) : list Loan.t :=
  filter (fun l => Loan.customer l =? Customer.customer_id c) (loans db).

(** [queryset.aggregate(total=Sum(column))['total']]: [None] on no rows. *)
Definition aggregate_Sum {A : Type} (zero : A) (plus : A -> A -> A)
           (column : Loan.t -> A) (rows : list Loan.t) : option A :=
  match rows with
  | [] => None
  | _ => Some (fold_left (fun acc l => plus acc (column l)) rows zero)
  end.

Definition Sum_Decimal := aggregate_Sum 0%Q Qplus.
Definition Sum_int := aggregate_Sum 0 Z.add.

(** [total or Decimal('0')] and [total or 0]: the default replaces [None]
    and a zero. *)
Definition or_Decimal (total : option Dec.Decimal) : Dec.Decimal :=
  match total with
  | Some v => if Qeq_bool v 0 then 0%Q else v
  | None => 0%Q
  end.

Definition or_int (total : option Z) : Z :=
  match total with
  | Some v => if v =? 0 then 0 else v
  | None => 0
  end.

(** A fresh key for an [AutoField]. *)
Definition next_key (keys : list Z) : Z := fold_right Z.max 0 keys + 1.

(** [queryset.exists()] and [queryset.count()] *)
Definition exists_ (rows : list Loan.t) : bool :=
  match rows with [] => false | _ => true end.

Definition count (rows : list Loan.t) : Z := Z.of_nat (List.length rows).

(** ** services.py *)

Module CreditScoreCalculator.

(** [today] is the reading of [timezone.now()]. *)
Definition calculate_credit_score (db : Db) (today : Date.date)
           (customer : Customer.t) : result Num.number :=
  let customer_loans := Loan_filter_customer db customer in
  if negb (exists_ customer_loans) then Ok (Num.Int 50)
  else
    let total_current_loans :=
      or_Decimal (Sum_Decimal Loan.loan_amount customer_loans) in
    if Dec.gt total_current_loans (Customer.approved_limit customer)
    then Ok (Num.Int 0)
    else
      let total_loans := count customer_loans in
      if total_loans =? 0 then Ok (Num.Int 50)
      else
        let total_emis := or_int (Sum_int Loan.tenure customer_loans) in
        let total_paid_on_time :=
          or_int (Sum_int Loan.emis_paid_on_time customer_loans) in
        on_time_ratio <-
          Float.int_truediv total_paid_on_time (Z.max total_emis 1) ;;
        let on_time_score :=
          Num.min (Num.Int 40) (Num.mul (Num.Flt on_time_ratio) (Num.Int 40)) in
        let loan_count_score := Num.Int (Z.max 0 (20 - total_loans * 2)) in
        let current_year := Date.year today in
        let current_year_loans :=
          count (filter (fun l => Date.year (Loan.start_date l) =? current_year)
                        customer_loans) in
        let activity_score := Num.Int (Z.min 20 (current_year_loans * 5)) in
        let total_approved_volume :=
          or_Decimal (Sum_Decimal Loan.loan_amount customer_loans) in
        ratio <- Float.div (Float.of_Q total_approved_volume)
                           (Float.of_Q (Customer.approved_limit customer)) ;;
        let volume_ratio := Num.min (Num.Int 1) (Num.Flt ratio) in
        let volume_score := Num.mul volume_ratio (Num.Int 20) in
        let total_score :=
          Num.add (Num.add (Num.add on_time_score loan_count_score)
                           activity_score)
                  volume_score in
        Ok (Num.min (Num.Int 100) (Num.max (Num.Int 0) total_score)).

End CreditScoreCalculator.

Module LoanEligibilityService.

(** [Decimal(str(x)).quantize(Decimal('0.01'), rounding=ROUND_HALF_UP)].
    The literal of an infinity cannot be quantized; the NaN, which only an
    infinite intermediate produces, is given the same exception. *)
Definition Decimal_str_quantize (x : Float.float) : result Dec.Decimal :=
  match Float.repr_value x with
  | Some d => Dec.quantize d (1 # 100)
  | None => Raise InvalidOperation
  end.

Definition calculate_monthly_installment
           (loan_amount interest_rate : Dec.Decimal) (tenure : Z)
  : result Dec.Decimal :=
  let principal := Float.of_Q loan_amount in
  monthly_rate <- Float.div (Float.of_Q interest_rate) (Float.of_Z (12 * 100)) ;;
  if Float.is_zero monthly_rate then
    months <- Float.of_int tenure ;;
    quotient <- Float.div principal months ;;
    Decimal_str_quantize quotient
  else
    let growth := Float.add (Float.of_Z 1) monthly_rate in
    numer_pow <- Float.pow growth tenure ;;
    denom_pow <- Float.pow growth tenure ;;
    emi <- Float.div (Float.mul (Float.mul principal monthly_rate) numer_pow)
                     (Float.sub denom_pow (Float.of_Z 1)) ;;
    Decimal_str_quantize emi.

Definition get_corrected_interest_rate (credit_score : Num.number)
           (requested_rate : Dec.Decimal) : Dec.Decimal :=
  if Num.gt credit_score (Num.Int 50) then Dec.max requested_rate 0%Q
  else if Num.gt credit_score (Num.Int 30) then Dec.max requested_rate 12%Q
  else if Num.gt credit_score (Num.Int 10) then Dec.max requested_rate 16%Q
  else requested_rate.

(** The dict that [check_eligibility] returns. *)
Record Verdict : Type := {
  approval : bool;
  message : string;
  interest_rate : Dec.Decimal;
  corrected_interest_rate : Dec.Decimal;
  monthly_installment : Dec.Decimal
}.

(** [Loan.objects.filter(customer=customer, end_date__gte=today)] *)
Definition current_loans (db : Db) (today : Date.date) (customer : Customer.t)
  : list Loan.t :=
  filter (fun l => (Loan.customer l =? Customer.customer_id customer)
                   && Date.leb today (Loan.end_date l))
         (loans db).

Definition check_eligibility (db : Db) (today : Date.date) (customer_id : Z)
           (loan_amount interest_rate : Dec.Decimal) (tenure : Z)
  : result Verdict :=
  match Customer_get db customer_id with
  | Raise DoesNotExist =>
      Ok {| approval := false;
            message := "Customer not found";
            interest_rate := interest_rate;
            corrected_interest_rate := interest_rate;
            monthly_installment := 0%Q |}
  | Raise e => Raise e
  | Ok customer =>
      credit_score <-
        CreditScoreCalculator.calculate_credit_score db today customer ;;
      let corrected_rate :=
        get_corrected_interest_rate credit_score interest_rate in
      monthly_installment <-
        calculate_monthly_installment loan_amount corrected_rate tenure ;;
      if Num.le credit_score (Num.Int 10) then
        Ok {| approval := false;
              message := "Credit score too low for loan approval";
              interest_rate := interest_rate;
              corrected_interest_rate := corrected_rate;
              monthly_installment := 0%Q |}
      else
        let current_emi_sum :=
          or_Decimal (Sum_Decimal Loan.monthly_repayment
                                  (current_loans db today customer)) in
        let total_emi_with_new_loan :=
          (current_emi_sum + monthly_installment)%Q in
        let max_allowed_emi :=
          (Customer.monthly_salary customer * (5 # 10))%Q in
        if Dec.gt total_emi_with_new_loan max_allowed_emi then
          Ok {| approval := false;
                message := "Total EMI would exceed 50% of monthly salary";
                interest_rate := interest_rate;
                corrected_interest_rate := corrected_rate;
                monthly_installment := 0%Q |}
        else
          let '(approval, message) :=
            if Num.gt credit_score (Num.Int 50) then
              (true, "Loan approved")
            else if Num.gt credit_score (Num.Int 30) then
              if Dec.lt corrected_rate 12%Q
              then (false, "Interest rate too low for credit score")
              else (true, "Loan approved with corrected interest rate")
            else if Num.gt credit_score (Num.Int 10) then
              if Dec.lt corrected_rate 16%Q
              then (false, "Interest rate too low for credit score")
              else (true, "Loan approved with corrected interest rate")
            else (false, "Credit score too low for loan approval") in
          Ok {| approval := approval;
                message := message;
                interest_rate := interest_rate;
                corrected_interest_rate := corrected_rate;
                monthly_installment :=
                  if approval then monthly_installment else 0%Q |}
  end%string.

End LoanEligibilityService.

(** ** serializers.py *)

Module CustomerRegistrationSerializer.

(** [validated_data], as the field declarations leave it. *)
Record data : Type := {
  first_name : string;
  last_name : string;
  age : Z;
  monthly_income : Dec.Decimal;
  phone_number : Z
}.


(** The first statements of [create]: 36 salaries, to the nearest lakh. *)
Definition create_approved_limit (monthly_income : Dec.Decimal)
  : result Dec.Decimal :=
  let approved_limit := (36 * monthly_income)%Q in
  lakhs <- Dec.quantize (approved_limit / 100000)%Q 1%Q ;;
  Ok (lakhs * 100000)%Q.

Definition create (db : Db) (validated_data : data)
  : result (Db * Customer.t) :=
  approved_limit <- create_approved_limit (monthly_income validated_data) ;;
  let customer :=
    {| Customer.customer_id :=
         next_key (map Customer.customer_id (customers db));
       Customer.first_name := first_name validated_data;
       Customer.last_name := last_name validated_data;
       Customer.age := age validated_data;
       Customer.phone_number := phone_number validated_data;
       Customer.monthly_salary := monthly_income validated_data;
       Customer.approved_limit := approved_limit;
       Customer.current_debt := 0%Q |} in
  Ok ({| customers := customers db ++ [customer]; loans := loans db |},
      customer).

(** The outcome of a field validator: the value, or
    [serializers.ValidationError] with its message. *)
Inductive validated (A : Type) : Type :=
| Valid (value : A)
| ValidationError (detail : string).

Arguments Valid {A} value.
Arguments ValidationError {A} detail.

Definition validate_phone_number (db : Db) (value : Z) : validated Z :=
  if existsb (fun c => Customer.phone_number c =? value) (customers db)
  then ValidationError "Phone number already exists."
  else Valid value.

End CustomerRegistrationSerializer.

Module CreateLoanSerializer.

Record data : Type := {
  customer_id : Z;
  loan_amount : Dec.Decimal;
  interest_rate : Dec.Decimal;
  tenure : Z
}.

Definition validate_customer_id (db : Db) (value : Z) : bool :=
  Customer_exists db value.

Definition is_valid (db : Db) (d : data) : bool :=
  validate_customer_id db (customer_id d)
  && Dec.field_valid 12 2 (Some (1 # 100)) (loan_amount d)
  && Dec.field_valid 5 2 (Some 0%Q) (interest_rate d)
  && (1 <=? tenure d) && (tenure d <=? 360).

End CreateLoanSerializer.

Module LoanEligibilitySerializer.

Record data : Type := {
  customer_id : Z;
  loan_amount : Dec.Decimal;
  interest_rate : Dec.Decimal;
  tenure : Z
}.

Definition validate_customer_id (db : Db) (value : Z) : bool :=
  Customer_exists db value.

Definition is_valid (db : Db) (d : data) : bool :=
  validate_customer_id db (customer_id d)
  && Dec.field_valid 12 2 (Some (1 # 100)) (loan_amount d)
  && Dec.field_valid 5 2 (Some 0%Q) (interest_rate d)
  && (1 <=? tenure d) && (tenure d <=? 360).

End LoanEligibilitySerializer.

Module LoanEligibilityResponseSerializer.

Record data : Type := {
  customer_id : Z;
  approval : bool;
  interest_rate : Dec.Decimal;
  corrected_interest_rate : Dec.Decimal;
  tenure : Z;
  monthly_installment : Dec.Decimal
}.

End LoanEligibilityResponseSerializer.

Module CustomerDetailSerializer.

(** [fields = ['id', 'first_name', 'last_name', 'phone_number', 'age']],
    with [id] read from [customer_id]. *)
Record data : Type := {
  id : Z;
  first_name : string;
  last_name : string;
  phone_number : Z;
  age : Z
}.

Definition to_representation (c : Customer.t) : data :=
  {| id := Customer.customer_id c;
     first_name := Customer.first_name c;
     last_name := Customer.last_name c;
     phone_number := Customer.phone_number c;
     age := Customer.age c |}.

End CustomerDetailSerializer.

Module LoanDetailSerializer.

Record data : Type := {
  loan_id : Z;
  customer : CustomerDetailSerializer.data;
  loan_amount : Dec.Decimal;
  interest_rate : Dec.Decimal;
  monthly_repayment : Dec.Decimal;
  tenure : Z;
  loan_approved : bool
}.

(** [return True  # All loans in DB are approved] *)
Definition get_loan_approved (obj : Loan.t) : bool := true.

(** The nested serializer reads [loan.customer], a fetch by foreign key. *)
Definition to_representation (db : Db) (obj : Loan.t) : result data :=
  owner <- Customer_get db (Loan.customer obj) ;;
  Ok {| loan_id := Loan.loan_id obj;
        customer := CustomerDetailSerializer.to_representation owner;
        loan_amount := Loan.loan_amount obj;
        interest_rate := Loan.interest_rate obj;
        monthly_repayment := Loan.monthly_repayment obj;
        tenure := Loan.tenure obj;
        loan_approved := get_loan_approved obj |}.

End LoanDetailSerializer.

Module CustomerLoanListSerializer.

(** [monthly_installment] is read from [monthly_repayment],
    [repayments_left] from the property of the model. *)
Record data : Type := {
  loan_id : Z;
  loan_amount : Dec.Decimal;
  interest_rate : Dec.Decimal;
  monthly_installment : Dec.Decimal;
  repayments_left : Z
}.

Definition to_representation (today : Date.date) (obj : Loan.t) : data :=
  {| loan_id := Loan.loan_id obj;
     loan_amount := Loan.loan_amount obj;
     interest_rate := Loan.interest_rate obj;
     monthly_installment := Loan.monthly_repayment obj;
     repayments_left := Loan.repayments_left today obj |}.

End CustomerLoanListSerializer.

(** [Loan.objects.get(loan_id=id)] *)
Definition Loan_get (db : Db) (id : Z) : result Loan.t :=
  match find (fun l => Loan.loan_id l =? id) (loans db) with
  | Some l => Ok l
  | None => Raise DoesNotExist
  end.

(** ** views.py *)

(** [Loan.objects.create(...)]: a row with a fresh key and the column
    default for [emis_paid_on_time]. *)
Definition Loan_create (db : Db) (customer : Customer.t)
           (loan_amount : Dec.Decimal) (tenure : Z)
           (interest_rate monthly_repayment : Dec.Decimal)
           (start_date end_date : Date.date) : Db * Loan.t :=
  let loan :=
    {| Loan.loan_id := next_key (map Loan.loan_id (loans db));
       Loan.customer := Customer.customer_id customer;
       Loan.loan_amount := loan_amount;
       Loan.tenure := tenure;
       Loan.interest_rate := interest_rate;
       Loan.monthly_repayment := monthly_repayment;
       Loan.emis_paid_on_time := Loan.emis_paid_on_time_default;
       Loan.start_date := start_date;
       Loan.end_date := end_date |} in
  ({| customers := customers db; loans := loans db ++ [loan] |}, loan).

(** [customer.save()]: the row of that key is rewritten, or inserted. *)
Definition Customer_save (db : Db) (c : Customer.t) : Db :=
  let same c0 := Customer.customer_id c0 =? Customer.customer_id c in
  {| customers :=
       if existsb same (customers db)
       then map (fun c0 => if same c0 then c else c0) (customers db)
       else customers db ++ [c];
     loans := loans db |}.

Module Views.

(** [response_data] of [create_loan]. *)
Record CreateLoanResponse : Type := {
  loan_id : option Z;
  customer_id : Z;
  loan_approved : bool;
  message : string;
  monthly_installment : option Dec.Decimal
}.

Inductive Response : Type :=
| Response_data (body : CreateLoanResponse) (status : Z)
| Response_errors (status : Z).

Definition HTTP_200_OK : Z := 200.
Definition HTTP_201_CREATED : Z := 201.
Definition HTTP_400_BAD_REQUEST : Z := 400.
Definition HTTP_404_NOT_FOUND : Z := 404.

(** The view, on the parsed request body, from one state of the storage
    to the next. *)
Definition create_loan (db : Db) (today : Date.date)
           (data : CreateLoanSerializer.data) : result (Db * Response) :=
  if CreateLoanSerializer.is_valid db data then
    result <- LoanEligibilityService.check_eligibility db today
                (CreateLoanSerializer.customer_id data)
                (CreateLoanSerializer.loan_amount data)
                (CreateLoanSerializer.interest_rate data)
                (CreateLoanSerializer.tenure data) ;;
    if negb (LoanEligibilityService.approval result) then
      Ok (db,
          Response_data
            {| loan_id := None;
               customer_id := CreateLoanSerializer.customer_id data;
               loan_approved := false;
               message := LoanEligibilityService.message result;
               monthly_installment := None |}
            HTTP_200_OK)
    else
      match Customer_get db (CreateLoanSerializer.customer_id data) with
      | Raise DoesNotExist =>
          Ok (db,
              Response_data
                {| loan_id := None;
                   customer_id := CreateLoanSerializer.customer_id data;
                   loan_approved := false;
                   message := "Customer not found";
                   monthly_installment := None |}
                HTTP_404_NOT_FOUND)
      | Raise e => Raise e
      | Ok customer =>
          let start_date := today in
          end_date <-
            Date.add_months start_date (CreateLoanSerializer.tenure data) ;;
          let '(db1, loan) :=
            Loan_create db customer
              (CreateLoanSerializer.loan_amount data)
              (CreateLoanSerializer.tenure data)
              (LoanEligibilityService.corrected_interest_rate result)
              (LoanEligibilityService.monthly_installment result)
              start_date end_date in
          let customer' :=
            Customer.with_current_debt customer
              (Customer.current_debt customer
               + CreateLoanSerializer.loan_amount data)%Q in
          let db2 := Customer_save db1 customer' in
          Ok (db2,
              Response_data
                {| loan_id := Some (Loan.loan_id loan);
                   customer_id := CreateLoanSerializer.customer_id data;
                   loan_approved := true;
                   message := "Loan approved successfully";
                   monthly_installment :=
                     Some (LoanEligibilityService.monthly_installment result) |}
                HTTP_201_CREATED)
      end
  else Ok (db, Response_errors HTTP_400_BAD_REQUEST).

(** The response of a read-only view: a body with its status, or the
    error body of the framework (validation errors, [Http404]). *)
Inductive Reply (A : Type) : Type :=
| Reply_data (body : A) (status : Z)
| Reply_errors (status : Z).

Arguments Reply_data {A} body status.
Arguments Reply_errors {A} status.

Definition check_eligibility (db : Db) (today : Date.date)
           (data : LoanEligibilitySerializer.data)
  : result (Reply LoanEligibilityResponseSerializer.data) :=
  if LoanEligibilitySerializer.is_valid db data then
    result <- LoanEligibilityService.check_eligibility db today
                (LoanEligibilitySerializer.customer_id data)
                (LoanEligibilitySerializer.loan_amount data)
                (LoanEligibilitySerializer.interest_rate data)
                (LoanEligibilitySerializer.tenure data) ;;
    Ok (Reply_data
          {| LoanEligibilityResponseSerializer.customer_id :=
               LoanEligibilitySerializer.customer_id data;
             LoanEligibilityResponseSerializer.approval :=
               LoanEligibilityService.approval result;
             LoanEligibilityResponseSerializer.interest_rate :=
               LoanEligibilityService.interest_rate result;
             LoanEligibilityResponseSerializer.corrected_interest_rate :=
               LoanEligibilityService.corrected_interest_rate result;
             LoanEligibilityResponseSerializer.tenure :=
               LoanEligibilitySerializer.tenure data;
             LoanEligibilityResponseSerializer.monthly_installment :=
               LoanEligibilityService.monthly_installment result |}
          HTTP_200_OK)
  else Ok (Reply_errors HTTP_400_BAD_REQUEST).

(** [get_object_or_404] raises [Http404], which the framework answers with
    status 404; the [except Loan.DoesNotExist] of the view never runs. *)
Definition view_loan (db : Db) (loan_id : Z)
  : result (Reply LoanDetailSerializer.data) :=
  match Loan_get db loan_id with
  | Raise DoesNotExist => Ok (Reply_errors HTTP_404_NOT_FOUND)
  | Raise e => Raise e
  | Ok loan =>
      body <- LoanDetailSerializer.to_representation db loan ;;
      Ok (Reply_data body HTTP_200_OK)
  end.

Definition view_customer_loans (db : Db) (today : Date.date) (customer_id : Z)
  : result (Reply (list CustomerLoanListSerializer.data)) :=
  match Customer_get db customer_id with
  | Raise DoesNotExist => Ok (Reply_errors HTTP_404_NOT_FOUND)
  | Raise e => Raise e
  | Ok customer =>
      let loans := Loan_filter_customer db customer in
      Ok (Reply_data
            (map (CustomerLoanListSerializer.to_representation today) loans)
            HTTP_200_OK)
  end.

End Views.

(** ** Sample data *)

Definition customer1 : Customer.t :=
  {| Customer.customer_id := 1; Customer.first_name := "Test";
     Customer.last_name := "Customer"; Customer.age := 30;
     Customer.phone_number := 1234567890;
     Customer.monthly_salary := 50000%Q;
     Customer.approved_limit := 1800000%Q;
     Customer.current_debt := 0%Q |}.

Definition db1 : Db := {| customers := [customer1]; loans := [] |}.

Definition today1 : Date.date :=
  {| Date.year := 2026; Date.month := 11; Date.day := 3 |}.

(** The paid-off loan of the repository's tests. *)
Definition loan_paid : Loan.t :=
  {| Loan.loan_id := 1; Loan.customer := 1;
     Loan.loan_amount := 100000%Q; Loan.tenure := 12;
     Loan.interest_rate := (105 # 10)%Q;
     Loan.monthly_repayment := 8800%Q; Loan.emis_paid_on_time := 12;
     Loan.start_date := {| Date.year := 2023; Date.month := 1; Date.day := 1 |};
     Loan.end_date := {| Date.year := 2023; Date.month := 12; Date.day := 31 |} |}.

Definition db_history : Db := {| customers := [customer1]; loans := [loan_paid] |}.

(** A fully repaid loan above the approved limit of 1800000. *)
Definition loan_over : Loan.t :=
  {| Loan.loan_id := 1; Loan.customer := 1;
     Loan.loan_amount := 2000000%Q; Loan.tenure := 12;
     Loan.interest_rate := 10%Q;
     Loan.monthly_repayment := 175000%Q; Loan.emis_paid_on_time := 12;
     Loan.start_date := {| Date.year := 2026; Date.month := 1; Date.day := 1 |};
     Loan.end_date := {| Date.year := 2027; Date.month := 1; Date.day := 1 |} |}.

Definition db_over : Db := {| customers := [customer1]; loans := [loan_over] |}.

(** A running loan whose instalment takes 30000 of the 50000 salary. *)
Definition loan_running : Loan.t :=
  {| Loan.loan_id := 1; Loan.customer := 1;
     Loan.loan_amount := 100000%Q; Loan.tenure := 12;
     Loan.interest_rate := 10%Q;
     Loan.monthly_repayment := 30000%Q; Loan.emis_paid_on_time := 12;
     Loan.start_date := {| Date.year := 2026; Date.month := 6; Date.day := 1 |};
     Loan.end_date := {| Date.year := 2027; Date.month := 6; Date.day := 1 |} |}.

Definition db_running : Db :=
  {| customers := [customer1]; loans := [loan_running] |}.

(** The request of the repository's tests and the storage it leaves. *)
Definition data1 : CreateLoanSerializer.data :=
  {| CreateLoanSerializer.customer_id := 1;
     CreateLoanSerializer.loan_amount := 100000%Q;
     CreateLoanSerializer.interest_rate := (105 # 10)%Q;
     CreateLoanSerializer.tenure := 12 |}.

Definition loan_issued : Loan.t :=
  {| Loan.loan_id := 1; Loan.customer := 1;
     Loan.loan_amount := 100000%Q; Loan.tenure := 12;
     Loan.interest_rate := 12%Q;
     Loan.monthly_repayment := (888488 # 100)%Q;
     Loan.emis_paid_on_time := 0;
     Loan.start_date := today1;
     Loan.end_date := {| Date.year := 2027; Date.month := 11; Date.day := 3 |} |}.

Definition db1_after : Db :=
  {| customers := [Customer.with_current_debt customer1 100000%Q];
     loans := [loan_issued] |}.

Definition body1 : Views.CreateLoanResponse :=
  {| Views.loan_id := Some 1;
     Views.customer_id := 1;
     Views.loan_approved := true;
     Views.message := "Loan approved successfully";
     Views.monthly_installment := Some (888488 # 100)%Q |}.

(** The registration of the repository's tests. *)
Definition registration1 : CustomerRegistrationSerializer.data :=
  {| CustomerRegistrationSerializer.first_name := "Jane";
     CustomerRegistrationSerializer.last_name := "Smith";
     CustomerRegistrationSerializer.age := 25;
     CustomerRegistrationSerializer.monthly_income := 60000%Q;
     CustomerRegistrationSerializer.phone_number := 9876543210 |}.

Definition customer_jane : Customer.t :=
  {| Customer.customer_id := 2; Customer.first_name := "Jane";
     Customer.last_name := "Smith"; Customer.age := 25;
     Customer.phone_number := 9876543210;
     Customer.monthly_salary := 60000%Q;
     Customer.approved_limit := 2200000%Q;
     Customer.current_debt := 0%Q |}.

Definition db1_registered : Db :=
  {| customers := [customer1; customer_jane]; loans := [] |}.

(** ** Vocabulary of the statements *)

(** The sum of a list of amounts. *)
Definition Qsum (l : list Q) : Q := fold_right Qplus 0%Q l.

(** A storage as the database keeps it: primary keys are unique and every
    loan points to a stored customer. *)
Definition Db_wf (db : Db) : Prop :=
  NoDup (map Customer.customer_id (customers db))
  /\ NoDup (map Loan.loan_id (loans db))
  /\ Forall (fun l => Customer_exists db (Loan.customer l) = true) (loans db).

(** A calendar date: month 1..12, day within the month. *)
Definition Date_valid (d : Date.date) : Prop :=
  (1 <= Date.month d <= 12
   /\ 1 <= Date.day d <= Date.days_in_month (Date.year d) (Date.month d))%Z.

(** ** The model on the repository's own test data *)

Example new_customer_default_score :
  CreditScoreCalculator.calculate_credit_score db1 today1 customer1
  = Ok (Num.Int 50).
Proof. reflexivity. Qed.

Example corrected_interest_rate_tests :
  LoanEligibilityService.get_corrected_interest_rate (Num.Int 60) 8%Q = 8%Q
  /\ LoanEligibilityService.get_corrected_interest_rate (Num.Int 40) 8%Q = 12%Q
  /\ LoanEligibilityService.get_corrected_interest_rate (Num.Int 20) 8%Q = 16%Q.
Proof. repeat split. Qed.

Example register_customer_success :
  CustomerRegistrationSerializer.create_approved_limit 60000%Q = Ok 2200000%Q.
Proof. reflexivity. Qed.

Example credit_score_with_loans :
  CreditScoreCalculator.calculate_credit_score db_history today1 customer1
  = Ok (Num.Flt (S754_finite false 8319149311670500 (-47)))
  /\ Num.gt (Num.Flt (S754_finite false 8319149311670500 (-47))) (Num.Int 50)
     = true.
Proof. split; vm_compute; reflexivity. Qed.

(** [repr(0.1 + 0.2)], [repr(1 / 3)], [repr(0.15 / 6)] and [repr(2.0 ** 70)]
    as CPython prints them. *)
Example repr_of_sum :
  Float.repr_value (Float.add (Float.of_Q (1 # 10)) (Float.of_Q (2 # 10)))
  = Some (7500000000000001 # 25000000000000000)%Q.
Proof. vm_compute. reflexivity. Qed.

Example repr_of_third :
  option_map Float.repr_value
    (match Float.int_truediv 1 3 with Ok x => Some x | Raise _ => None end)
  = Some (Some (3333333333333333 # 10000000000000000)%Q).
Proof. vm_compute. reflexivity. Qed.

Example repr_of_quotient :
  (x <- Float.div (Float.of_Q (15 # 100)) (Float.of_Z 6) ;;
   Ok (Float.repr_value x))
  = Ok (Some (12499999999999999 # 500000000000000000)%Q).
Proof. vm_compute. reflexivity. Qed.

Example repr_of_power :
  (x <- Float.pow (Float.of_Z 2) 70 ;; Ok (Float.repr_value x))
  = Ok (Some 1180591620717411300000%Q).
Proof. vm_compute. reflexivity. Qed.

Example monthly_installment_12_percent :
  LoanEligibilityService.calculate_monthly_installment 100000%Q 12%Q 12
  = Ok (888488 # 100).
Proof. vm_compute. reflexivity. Qed.

(** * Properties *)

Local Open Scope Q_scope.

(** ** Comparisons *)

Lemma Dec_gt_true (a b : Q) : Dec.gt a b = true <-> b < a.
Proof.
  unfold Dec.gt, Dec.lt. rewrite negb_true_iff.
  split; intro H.
  - apply Qnot_le_lt. intro Hle. apply Qle_bool_iff in Hle. congruence.
  - destruct (Qle_bool a b) eqn:E; [|reflexivity].
    apply Qle_bool_iff in E. exfalso. apply (Qlt_not_le _ _ H E).
Qed.

Lemma Dec_gt_false (a b : Q) : Dec.gt a b = false <-> a <= b.
Proof.
  unfold Dec.gt, Dec.lt. rewrite negb_false_iff. apply Qle_bool_iff.
Qed.

Lemma Dec_lt_gt (a b : Q) : Dec.lt a b = Dec.gt b a.
Proof. reflexivity. Qed.

(** Python's [max] computes the maximum. *)
Lemma Dec_max_Qmax (a b : Q) : Dec.max a b == Qmax a b.
Proof.
  unfold Dec.max. destruct (Dec.gt b a) eqn:E.
  - apply Dec_gt_true in E. symmetry. apply Q.max_r. apply Qlt_le_weak, E.
  - apply Dec_gt_false in E. symmetry. apply Q.max_l, E.
Qed.

Lemma Dec_max_ge_l (a b : Q) : a <= Dec.max a b.
Proof. rewrite Dec_max_Qmax. apply Q.le_max_l. Qed.

Lemma Dec_max_ge_r (a b : Q) : b <= Dec.max a b.
Proof. rewrite Dec_max_Qmax. apply Q.le_max_r. Qed.

Lemma Num_compare_int_antisym (s : Num.number) (n : Z) :
  Num.compare (Num.Int n) s = option_map CompOpp (Num.compare s (Num.Int n)).
Proof.
  destruct s as [m|x]; simpl.
  - now rewrite Z.compare_antisym.
  - destruct (Num.compare_int_float n x) as [c|]; simpl; [|reflexivity].
    now rewrite CompOpp_involutive.
Qed.

(** [score <= n] excludes [score > n]. *)
Lemma Num_le_not_gt (s : Num.number) (n : Z) :
  Num.le s (Num.Int n) = true -> Num.gt s (Num.Int n) = false.
Proof.
  unfold Num.le, Num.gt, Num.lt. rewrite Num_compare_int_antisym.
  destruct (Num.compare s (Num.Int n)) as [[| |]|]; simpl; congruence.
Qed.

Lemma Num_gt_not_le (s : Num.number) (n : Z) :
  Num.gt s (Num.Int n) = true -> Num.le s (Num.Int n) = false.
Proof.
  intro H. destruct (Num.le s (Num.Int n)) eqn:E; [|reflexivity].
  apply Num_le_not_gt in E. congruence.
Qed.

(** A higher threshold passed is a lower threshold passed. *)
Lemma Qcompare_int_lt_trans (n m : Z) (v : Q) :
  (m <= n)%Z -> (inject_Z n ?= v) = Lt -> (inject_Z m ?= v) = Lt.
Proof.
  intros Hmn E. rewrite <- Qlt_alt in *.
  eapply Qle_lt_trans; [|exact E]. rewrite <- Zle_Qle. exact Hmn.
Qed.

Lemma Num_gt_int_trans (s : Num.number) (n m : Z) :
  (m <= n)%Z -> Num.gt s (Num.Int n) = true -> Num.gt s (Num.Int m) = true.
Proof.
  intros Hmn. unfold Num.gt, Num.lt.
  destruct s as [k|x]; cbn [Num.compare].
  - destruct (n ?= k)%Z eqn:E1; try discriminate. intros _.
    rewrite Z.compare_lt_iff in E1.
    assert (E2 : (m ?= k)%Z = Lt) by (rewrite Z.compare_lt_iff; lia).
    now rewrite E2.
  - destruct x as [sg|sg| |sg mx ex]; cbn [Num.compare_int_float];
      try discriminate.
    + destruct (inject_Z n ?= _) eqn:E1; try discriminate. intros _.
      now rewrite (Qcompare_int_lt_trans _ _ _ Hmn E1).
    + destruct sg; [discriminate|reflexivity].
    + destruct (inject_Z n ?= _) eqn:E1; try discriminate. intros _.
      now rewrite (Qcompare_int_lt_trans _ _ _ Hmn E1).
Qed.

(** ** Rate correction policy *)

(** C1.  For every score and every requested rate [r >= 0] the corrected
    rate follows the banding table: [max(r, 0)] above 50, [max(r, 12)] in
    (30, 50], [max(r, 16)] in (10, 30], and [r] itself up to 10; in every
    band the corrected rate is at least [r]. *)
Theorem corrected_rate_banding (score : Num.number) (r : Dec.Decimal) :
  0 <= r ->
  let c := LoanEligibilityService.get_corrected_interest_rate score r in
  (Num.gt score (Num.Int 50) = true -> c == Qmax r 0)
  /\ (Num.gt score (Num.Int 30) = true -> Num.le score (Num.Int 50) = true ->
      c == Qmax r 12)
  /\ (Num.gt score (Num.Int 10) = true -> Num.le score (Num.Int 30) = true ->
      c == Qmax r 16)
  /\ (Num.le score (Num.Int 10) = true -> c = r)
  /\ r <= c.
Proof.
  intros Hr c. subst c. unfold LoanEligibilityService.get_corrected_interest_rate.
  repeat split.
  - intros H50. rewrite H50. apply Dec_max_Qmax.
  - intros H30 L50. rewrite (Num_le_not_gt _ _ L50), H30. apply Dec_max_Qmax.
  - intros H10 L30. pose proof (Num_le_not_gt _ _ L30) as G30.
    assert (G50 : Num.gt score (Num.Int 50) = false).
    { destruct (Num.gt score (Num.Int 50)) eqn:E; [|reflexivity].
      apply Num_gt_int_trans with (m := 30%Z) in E; [congruence|lia]. }
    rewrite G50, G30, H10. apply Dec_max_Qmax.
  - intros L10. pose proof (Num_le_not_gt _ _ L10) as G10.
    assert (G30 : Num.gt score (Num.Int 30) = false).
    { destruct (Num.gt score (Num.Int 30)) eqn:E; [|reflexivity].
      apply Num_gt_int_trans with (m := 10%Z) in E; [congruence|lia]. }
    assert (G50 : Num.gt score (Num.Int 50) = false).
    { destruct (Num.gt score (Num.Int 50)) eqn:E; [|reflexivity].
      apply Num_gt_int_trans with (m := 10%Z) in E; [congruence|lia]. }
    now rewrite G50, G30, G10.
  - destruct (Num.gt score (Num.Int 50)); [apply Dec_max_ge_l|].
    destruct (Num.gt score (Num.Int 30)); [apply Dec_max_ge_l|].
    destruct (Num.gt score (Num.Int 10)); [apply Dec_max_ge_l|].
    apply Qle_refl.
Qed.

Lemma corrected_rate_banding_witness :
  let c := LoanEligibilityService.get_corrected_interest_rate (Num.Int 40) 8 in
  (Num.gt (Num.Int 40) (Num.Int 50) = true -> c == Qmax 8 0)
  /\ (Num.gt (Num.Int 40) (Num.Int 30) = true ->
      Num.le (Num.Int 40) (Num.Int 50) = true -> c == Qmax 8 12)
  /\ (Num.gt (Num.Int 40) (Num.Int 10) = true ->
      Num.le (Num.Int 40) (Num.Int 30) = true -> c == Qmax 8 16)
  /\ (Num.le (Num.Int 40) (Num.Int 10) = true -> c = 8)
  /\ 8 <= c.
Proof.
  apply (corrected_rate_banding (Num.Int 40) 8). unfold Qle. simpl. lia.
Defined.

(** ** Storage *)

Lemma Customer_get_absent (db : Db) (id : Z) :
  ~ In id (map Customer.customer_id (customers db)) ->
  Customer_get db id = Raise DoesNotExist.
Proof.
  intro H. unfold Customer_get.
  destruct (find _ (customers db)) as [c|] eqn:E; [|reflexivity].
  apply find_some in E. destruct E as [Hin Heq].
  apply Z.eqb_eq in Heq. exfalso. apply H. subst id.
  now apply in_map.
Qed.

Lemma Customer_get_only_DoesNotExist (db : Db) (id : Z) (e : exn) :
  Customer_get db id = Raise e -> e = DoesNotExist.
Proof.
  unfold Customer_get. destruct (find _ _); congruence.
Qed.

Lemma fold_left_Qplus (A : Type) (f : A -> Q) (rows : list A) (a : Q) :
  fold_left (fun acc l => acc + f l) rows a == a + Qsum (map f rows).
Proof.
  revert a. induction rows as [|x rows IH]; intro a; simpl.
  - now rewrite Qplus_0_r.
  - rewrite IH. now rewrite Qplus_assoc.
Qed.

(** The aggregate with its default is the sum of the column. *)
Lemma or_Decimal_Sum (column : Loan.t -> Q) (rows : list Loan.t) :
  or_Decimal (Sum_Decimal column rows) == Qsum (map column rows).
Proof.
  unfold Sum_Decimal, aggregate_Sum, or_Decimal.
  destruct rows as [|x rows]; [reflexivity|].
  set (t := fold_left _ _ _).
  assert (Ht : t == Qsum (map column (x :: rows))).
  { unfold t. rewrite fold_left_Qplus. apply Qplus_0_l. }
  destruct (Qeq_bool t 0) eqn:E; [|exact Ht].
  apply Qeq_bool_iff in E. now rewrite <- Ht, E.
Qed.

(** The overextension guard: a loan total above the limit returns 0. *)
Lemma over_limit_scores_zero
      (db : Db) (today : Date.date) (c : Customer.t) :
  Loan_filter_customer db c <> [] ->
  Customer.approved_limit c
  < Qsum (map Loan.loan_amount (Loan_filter_customer db c)) ->
  CreditScoreCalculator.calculate_credit_score db today c = Ok (Num.Int 0).
Proof.
  intros Hne Hover. unfold CreditScoreCalculator.calculate_credit_score.
  destruct (Loan_filter_customer db c) as [|l rows] eqn:E; [congruence|].
  cbn [exists_ negb].
  assert (G : Dec.gt (or_Decimal (Sum_Decimal Loan.loan_amount (l :: rows)))
                     (Customer.approved_limit c) = true).
  { apply Dec_gt_true. now rewrite or_Decimal_Sum. }
  now rewrite G.
Qed.

(** ** Credit score *)

(** C5.  A customer with at least one loan whose loan amounts sum to more
    than the approved limit scores exactly 0, whatever the other
    components would have been. *)
Theorem overextended_customer_scores_zero
        (db : Db) (today : Date.date) (c : Customer.t) :
  Loan_filter_customer db c <> [] ->
  Customer.approved_limit c
  < Qsum (map Loan.loan_amount (Loan_filter_customer db c)) ->
  CreditScoreCalculator.calculate_credit_score db today c = Ok (Num.Int 0).
Proof.
  intros Hne Hover. unfold CreditScoreCalculator.calculate_credit_score.
  destruct (Loan_filter_customer db c) as [|l rows] eqn:E; [congruence|].
  cbn [exists_ negb].
  assert (G : Dec.gt (or_Decimal (Sum_Decimal Loan.loan_amount (l :: rows)))
                     (Customer.approved_limit c) = true).
  { apply Dec_gt_true. now rewrite or_Decimal_Sum. }
  now rewrite G.
Qed.

Lemma overextended_customer_scores_zero_witness :
  CreditScoreCalculator.calculate_credit_score db_over today1 customer1
  = Ok (Num.Int 0).
Proof.
  apply (overextended_customer_scores_zero db_over today1 customer1).
  - vm_compute. discriminate.
  - vm_compute. reflexivity.
Defined.

(** ** Eligibility decision *)

(** C6.  For a customer id that the storage does not hold,
    [check_eligibility] returns, without raising, the verdict "Customer not
    found": not approved, instalment 0, corrected rate equal to the
    requested rate. *)
Theorem unknown_customer_verdict
        (db : Db) (today : Date.date) (customer_id : Z)
        (loan_amount interest_rate : Dec.Decimal) (tenure : Z) :
  ~ In customer_id (map Customer.customer_id (customers db)) ->
  LoanEligibilityService.check_eligibility
    db today customer_id loan_amount interest_rate tenure
  = Ok {| LoanEligibilityService.approval := false;
          LoanEligibilityService.message := "Customer not found";
          LoanEligibilityService.interest_rate := interest_rate;
          LoanEligibilityService.corrected_interest_rate := interest_rate;
          LoanEligibilityService.monthly_installment := 0 |}.
Proof.
  intro H. unfold LoanEligibilityService.check_eligibility.
  now rewrite (Customer_get_absent db customer_id H).
Qed.

Lemma unknown_customer_verdict_witness :
  LoanEligibilityService.check_eligibility db1 today1 99999 100000 (105 # 10) 12
  = Ok {| LoanEligibilityService.approval := false;
          LoanEligibilityService.message := "Customer not found";
          LoanEligibilityService.interest_rate := 105 # 10;
          LoanEligibilityService.corrected_interest_rate := 105 # 10;
          LoanEligibilityService.monthly_installment := 0 |}.
Proof.
  apply (unknown_customer_verdict db1 today1 99999 100000 (105 # 10) 12).
  simpl. intros [H|[]]. discriminate H.
Defined.

Lemma current_loans_filter (db : Db) (today : Date.date) (c : Customer.t) :
  LoanEligibilityService.current_loans db today c
  = filter (fun l => Date.leb today (Loan.end_date l))
           (Loan_filter_customer db c).
Proof.
  unfold LoanEligibilityService.current_loans, Loan_filter_customer.
  induction (loans db) as [|l ls IH]; simpl; [reflexivity|].
  destruct (Loan.customer l =? Customer.customer_id c)%Z; simpl.
  - destruct (Date.leb today (Loan.end_date l)); now rewrite IH.
  - exact IH.
Qed.

(** The decision once customer, score and instalment are known. *)
Ltac eligibility_found Hc Hs He :=
  unfold LoanEligibilityService.check_eligibility;
  rewrite Hc; cbn [bind]; rewrite Hs; cbn [bind]; rewrite He; cbn [bind].

(** C2.  An existing customer without loan history scores exactly 50, which
    lies in the band (30, 50] and not above 50; for a request of 100000 at
    10.5 over 12 months the corrected rate is 12, the instalment 8884.88,
    and, the salary affording it, the verdict is the approval "Loan approved
    with corrected interest rate". *)
Theorem new_customer_scenario
        (db : Db) (today : Date.date) (customer_id : Z) (c : Customer.t) :
  Customer_get db customer_id = Ok c ->
  Loan_filter_customer db c = [] ->
  888488 # 100 <= Customer.monthly_salary c * (1 # 2) ->
  CreditScoreCalculator.calculate_credit_score db today c = Ok (Num.Int 50)
  /\ Num.gt (Num.Int 50) (Num.Int 50) = false
  /\ Num.gt (Num.Int 50) (Num.Int 30) = true
  /\ LoanEligibilityService.check_eligibility
       db today customer_id 100000 (105 # 10) 12
     = Ok {| LoanEligibilityService.approval := true;
             LoanEligibilityService.message :=
               "Loan approved with corrected interest rate";
             LoanEligibilityService.interest_rate := 105 # 10;
             LoanEligibilityService.corrected_interest_rate := 12;
             LoanEligibilityService.monthly_installment := 888488 # 100 |}.
Proof.
  intros Hc Hnone Hafford.
  assert (Hs : CreditScoreCalculator.calculate_credit_score db today c
               = Ok (Num.Int 50)).
  { unfold CreditScoreCalculator.calculate_credit_score. now rewrite Hnone. }
  repeat split; [exact Hs|].
  unfold LoanEligibilityService.check_eligibility.
  rewrite Hc; cbn [bind]. rewrite Hs; cbn [bind].
  change (LoanEligibilityService.get_corrected_interest_rate
            (Num.Int 50) (105 # 10)) with 12.
  rewrite monthly_installment_12_percent; cbn [bind].
  change (Num.le (Num.Int 50) (Num.Int 10)) with false. cbv iota.
  rewrite current_loans_filter, Hnone.
  cbn [filter Sum_Decimal aggregate_Sum or_Decimal].
  assert (G : Dec.gt (0 + (888488 # 100)) (Customer.monthly_salary c * (5 # 10))
              = false).
  { apply Dec_gt_false. rewrite Qplus_0_l.
    assert (E : (5 # 10) == (1 # 2)) by reflexivity.
    rewrite E. exact Hafford. }
  rewrite G. reflexivity.
Qed.

Lemma new_customer_scenario_witness :
  CreditScoreCalculator.calculate_credit_score db1 today1 customer1
  = Ok (Num.Int 50)
  /\ Num.gt (Num.Int 50) (Num.Int 50) = false
  /\ Num.gt (Num.Int 50) (Num.Int 30) = true
  /\ LoanEligibilityService.check_eligibility db1 today1 1 100000 (105 # 10) 12
     = Ok {| LoanEligibilityService.approval := true;
             LoanEligibilityService.message :=
               "Loan approved with corrected interest rate";
             LoanEligibilityService.interest_rate := 105 # 10;
             LoanEligibilityService.corrected_interest_rate := 12;
             LoanEligibilityService.monthly_installment := 888488 # 100 |}.
Proof.
  apply (new_customer_scenario db1 today1 1 customer1).
  - reflexivity.
  - reflexivity.
  - unfold Qle. simpl. lia.
Defined.

(** C4.  For a customer whose credit score is above 10, when the monthly
    repayments of the customer's loans that end today or later, plus the
    instalment computed for the request, exceed half the monthly salary,
    the verdict is a rejection with the message "Total EMI would exceed 50%
    of monthly salary" and instalment 0, whatever the computed instalment. *)
Theorem excess_emi_rejected
        (db : Db) (today : Date.date) (customer_id : Z)
        (loan_amount interest_rate : Dec.Decimal) (tenure : Z)
        (c : Customer.t) (score : Num.number) (emi : Dec.Decimal) :
  Customer_get db customer_id = Ok c ->
  CreditScoreCalculator.calculate_credit_score db today c = Ok score ->
  Num.gt score (Num.Int 10) = true ->
  LoanEligibilityService.calculate_monthly_installment
    loan_amount
    (LoanEligibilityService.get_corrected_interest_rate score interest_rate)
    tenure = Ok emi ->
  Customer.monthly_salary c * (1 # 2)
  < Qsum (map Loan.monthly_repayment
              (filter (fun l => Date.leb today (Loan.end_date l))
                      (Loan_filter_customer db c)))
    + emi ->
  LoanEligibilityService.check_eligibility
    db today customer_id loan_amount interest_rate tenure
  = Ok {| LoanEligibilityService.approval := false;
          LoanEligibilityService.message :=
            "Total EMI would exceed 50% of monthly salary";
          LoanEligibilityService.interest_rate := interest_rate;
          LoanEligibilityService.corrected_interest_rate :=
            LoanEligibilityService.get_corrected_interest_rate
              score interest_rate;
          LoanEligibilityService.monthly_installment := 0 |}.
Proof.
  intros Hc Hs H10 He Hexceed.
  eligibility_found Hc Hs He.
  rewrite (Num_gt_not_le _ _ H10).
  assert (G : Dec.gt
                (or_Decimal (Sum_Decimal Loan.monthly_repayment
                               (LoanEligibilityService.current_loans db today c))
                 + emi)
                (Customer.monthly_salary c * (5 # 10)) = true).
  { apply Dec_gt_true. rewrite or_Decimal_Sum, current_loans_filter.
    assert (E : (5 # 10) == (1 # 2)) by reflexivity.
    rewrite E. exact Hexceed. }
  now rewrite G.
Qed.

Lemma excess_emi_rejected_witness :
  0 < 86988 # 100
  /\ LoanEligibilityService.check_eligibility db_running today1 1 10000 8 12
     = Ok {| LoanEligibilityService.approval := false;
             LoanEligibilityService.message :=
               "Total EMI would exceed 50% of monthly salary";
             LoanEligibilityService.interest_rate := 8;
             LoanEligibilityService.corrected_interest_rate :=
               LoanEligibilityService.get_corrected_interest_rate
                 (Num.Flt (S754_finite false 4511418376723570 (-46))) 8;
             LoanEligibilityService.monthly_installment := 0 |}.
Proof.
  split; [reflexivity|].
  apply (excess_emi_rejected db_running today1 1 10000 8 12 customer1
           (Num.Flt (S754_finite false 4511418376723570 (-46)))
           (86988 # 100)).
  - reflexivity.
  - vm_compute. reflexivity.
  - vm_compute. reflexivity.
  - vm_compute. reflexivity.
  - vm_compute. reflexivity.
Defined.

Lemma Dec_lt_max_r (a b : Q) : Dec.lt (Dec.max a b) b = false.
Proof. rewrite Dec_lt_gt. apply Dec_gt_false, Dec_max_ge_r. Qed.

Lemma corrected_rate_floor_12 (score : Num.number) (rate : Q) :
  Num.gt score (Num.Int 50) = false ->
  Num.gt score (Num.Int 30) = true ->
  Dec.lt (LoanEligibilityService.get_corrected_interest_rate score rate) 12
  = false.
Proof.
  intros G50 G30. unfold LoanEligibilityService.get_corrected_interest_rate.
  rewrite G50, G30. apply Dec_lt_max_r.
Qed.

Lemma corrected_rate_floor_16 (score : Num.number) (rate : Q) :
  Num.gt score (Num.Int 50) = false ->
  Num.gt score (Num.Int 30) = false ->
  Num.gt score (Num.Int 10) = true ->
  Dec.lt (LoanEligibilityService.get_corrected_interest_rate score rate) 16
  = false.
Proof.
  intros G50 G30 G10. unfold LoanEligibilityService.get_corrected_interest_rate.
  rewrite G50, G30, G10. apply Dec_lt_max_r.
Qed.

(** C9.  No verdict of [check_eligibility] carries the message "Interest
    rate too low for credit score": in the band (30, 50] the corrected rate
    is at least 12 and in the band (10, 30] at least 16.  Hence every
    request of a customer scoring above 10 that passes the affordability
    check is approved. *)
Theorem rate_too_low_unreachable
        (db : Db) (today : Date.date) (customer_id : Z)
        (loan_amount interest_rate : Dec.Decimal) (tenure : Z)
        (v : LoanEligibilityService.Verdict) :
  LoanEligibilityService.check_eligibility
    db today customer_id loan_amount interest_rate tenure = Ok v ->
  LoanEligibilityService.message v
  <> "Interest rate too low for credit score"%string
  /\ forall (c : Customer.t) (score : Num.number) (emi : Dec.Decimal),
      Customer_get db customer_id = Ok c ->
      CreditScoreCalculator.calculate_credit_score db today c = Ok score ->
      Num.gt score (Num.Int 10) = true ->
      LoanEligibilityService.calculate_monthly_installment
        loan_amount
        (LoanEligibilityService.get_corrected_interest_rate score interest_rate)
        tenure = Ok emi ->
      Qsum (map Loan.monthly_repayment
                (filter (fun l => Date.leb today (Loan.end_date l))
                        (Loan_filter_customer db c)))
      + emi <= Customer.monthly_salary c * (1 # 2) ->
      LoanEligibilityService.approval v = true.
Proof.
  intro Hv. split.
  - revert Hv. unfold LoanEligibilityService.check_eligibility.
    destruct (Customer_get db customer_id) as [c|e] eqn:Hc.
    + destruct (CreditScoreCalculator.calculate_credit_score db today c)
        as [score|e]; cbn [bind]; [|discriminate].
      destruct (LoanEligibilityService.calculate_monthly_installment _ _ _)
        as [emi|e]; cbn [bind]; [|discriminate].
      destruct (Num.le score (Num.Int 10));
        [intro H; injection H as <-; discriminate|].
      destruct (Dec.gt _ _); [intro H; injection H as <-; discriminate|].
      destruct (Num.gt score (Num.Int 50)) eqn:G50;
        [intro H; injection H as <-; discriminate|].
      destruct (Num.gt score (Num.Int 30)) eqn:G30.
      { rewrite (corrected_rate_floor_12 _ _ G50 G30).
        intro H; injection H as <-; discriminate. }
      destruct (Num.gt score (Num.Int 10)) eqn:G10.
      { rewrite (corrected_rate_floor_16 _ _ G50 G30 G10).
        intro H; injection H as <-; discriminate. }
      intro H; injection H as <-; discriminate.
    + rewrite (Customer_get_only_DoesNotExist _ _ _ Hc).
      intro H; injection H as <-; discriminate.
  - intros c score emi Hc Hs G10 He Hafford. revert Hv.
    eligibility_found Hc Hs He.
    rewrite (Num_gt_not_le _ _ G10).
    assert (G : Dec.gt
                  (or_Decimal (Sum_Decimal Loan.monthly_repayment
                                 (LoanEligibilityService.current_loans db today c))
                   + emi)
                  (Customer.monthly_salary c * (5 # 10)) = false).
    { apply Dec_gt_false. rewrite or_Decimal_Sum, current_loans_filter.
      assert (E : (5 # 10) == (1 # 2)) by reflexivity.
      rewrite E. exact Hafford. }
    rewrite G.
    destruct (Num.gt score (Num.Int 50)) eqn:G50;
      [intro H; injection H as <-; reflexivity|].
    destruct (Num.gt score (Num.Int 30)) eqn:G30.
    { rewrite (corrected_rate_floor_12 _ _ G50 G30).
      intro H; injection H as <-; reflexivity. }
    rewrite G10, (corrected_rate_floor_16 _ _ G50 G30 G10).
    intro H; injection H as <-; reflexivity.
Qed.

Lemma rate_too_low_unreachable_witness :
  let v := {| LoanEligibilityService.approval := true;
              LoanEligibilityService.message :=
                "Loan approved with corrected interest rate";
              LoanEligibilityService.interest_rate := 105 # 10;
              LoanEligibilityService.corrected_interest_rate := 12;
              LoanEligibilityService.monthly_installment := 888488 # 100 |} in
  LoanEligibilityService.message v
  <> "Interest rate too low for credit score"%string
  /\ LoanEligibilityService.approval v = true.
Proof.
  intro v.
  destruct (rate_too_low_unreachable db1 today1 1 100000 (105 # 10) 12 v)
    as [Hmsg Happ].
  - vm_compute. reflexivity.
  - split; [exact Hmsg|].
    apply (Happ customer1 (Num.Int 50) (888488 # 100)).
    + reflexivity.
    + reflexivity.
    + reflexivity.
    + vm_compute. reflexivity.
    + vm_compute. discriminate.
Defined.

(** ** Loan issuance *)

Lemma Customer_get_id (db : Db) (id : Z) (c : Customer.t) :
  Customer_get db id = Ok c -> Customer.customer_id c = id.
Proof.
  unfold Customer_get. destruct (find _ _) as [c0|] eqn:E; [|discriminate].
  intro H. injection H as <-. apply find_some in E.
  now apply Z.eqb_eq.
Qed.

Lemma find_replace (A : Type) (p : A -> bool) (c : A) (l : list A) :
  p c = true -> existsb p l = true ->
  find p (map (fun x => if p x then c else x) l) = Some c.
Proof.
  intros Hc. induction l as [|x l IH]; simpl; [discriminate|].
  destruct (p x) eqn:E; simpl.
  - now rewrite Hc.
  - now rewrite E.
Qed.

Lemma find_append (A : Type) (p : A -> bool) (c : A) (l : list A) :
  p c = true -> existsb p l = false -> find p (l ++ [c]) = Some c.
Proof.
  intros Hc. induction l as [|x l IH]; simpl.
  - now rewrite Hc.
  - destruct (p x); simpl; [discriminate|exact IH].
Qed.

(** What [customer.save()] has written is what a later [get] reads. *)
Lemma Customer_get_save (db : Db) (c : Customer.t) :
  Customer_get (Customer_save db c) (Customer.customer_id c) = Ok c.
Proof.
  unfold Customer_get, Customer_save; cbn [customers].
  set (p := fun c0 => (Customer.customer_id c0 =? Customer.customer_id c)%Z).
  assert (Hp : p c = true) by apply Z.eqb_refl.
  destruct (existsb p (customers db)) eqn:E.
  - change (map _ (customers db))
      with (map (fun x => if p x then c else x) (customers db)).
    now rewrite (find_replace _ p c _ Hp E).
  - now rewrite (find_append _ p c _ Hp E).
Qed.

(** An approving verdict reports the corrected rate and the instalment
    computed at that rate. *)
Lemma check_eligibility_approved
      (db : Db) (today : Date.date) (customer_id : Z)
      (loan_amount interest_rate : Dec.Decimal) (tenure : Z)
      (v : LoanEligibilityService.Verdict) :
  LoanEligibilityService.check_eligibility
    db today customer_id loan_amount interest_rate tenure = Ok v ->
  LoanEligibilityService.approval v = true ->
  exists (c : Customer.t) (score : Num.number),
    Customer_get db customer_id = Ok c
    /\ CreditScoreCalculator.calculate_credit_score db today c = Ok score
    /\ LoanEligibilityService.corrected_interest_rate v
       = LoanEligibilityService.get_corrected_interest_rate score interest_rate
    /\ LoanEligibilityService.calculate_monthly_installment
         loan_amount (LoanEligibilityService.corrected_interest_rate v) tenure
       = Ok (LoanEligibilityService.monthly_installment v).
Proof.
  unfold LoanEligibilityService.check_eligibility.
  destruct (Customer_get db customer_id) as [c|e] eqn:Hc.
  - destruct (CreditScoreCalculator.calculate_credit_score db today c)
      as [score|e] eqn:Hs; cbn [bind]; [|discriminate].
    destruct (LoanEligibilityService.calculate_monthly_installment _ _ _)
      as [emi|e] eqn:He; cbn [bind]; [|discriminate].
    destruct (Num.le score (Num.Int 10));
      [intro H; injection H as <-; discriminate|].
    destruct (Dec.gt _ _); [intro H; injection H as <-; discriminate|].
    destruct (if Num.gt score (Num.Int 50) then _ else _) as [a m].
    intro H; injection H as <-; cbn. intros ->.
    exists c, score. auto.
  - destruct e; try discriminate. intro H; injection H as <-; discriminate.
Qed.

(** C7.  After [create_loan] has issued a loan, the customer's current debt
    has grown by exactly the loan amount, and the one new row of table
    [loan] carries the corrected rate of the approving verdict, the
    instalment computed at that rate, no instalment paid on time yet, today
    as start date and today plus [tenure] months as end date. *)
Theorem loan_issuance_effects
        (db db' : Db) (today : Date.date) (data : CreateLoanSerializer.data)
        (body : Views.CreateLoanResponse) (status : Z) :
  Views.create_loan db today data = Ok (db', Views.Response_data body status) ->
  Views.loan_approved body = true ->
  exists (c c' : Customer.t) (verdict : LoanEligibilityService.Verdict)
         (loan : Loan.t),
    LoanEligibilityService.check_eligibility db today
      (CreateLoanSerializer.customer_id data)
      (CreateLoanSerializer.loan_amount data)
      (CreateLoanSerializer.interest_rate data)
      (CreateLoanSerializer.tenure data) = Ok verdict
    /\ LoanEligibilityService.approval verdict = true
    /\ Customer_get db (CreateLoanSerializer.customer_id data) = Ok c
    /\ Customer_get db' (CreateLoanSerializer.customer_id data) = Ok c'
    /\ Customer.current_debt c'
       = Customer.current_debt c + CreateLoanSerializer.loan_amount data
    /\ loans db' = loans db ++ [loan]
    /\ Loan.customer loan = CreateLoanSerializer.customer_id data
    /\ Loan.loan_amount loan = CreateLoanSerializer.loan_amount data
    /\ Loan.tenure loan = CreateLoanSerializer.tenure data
    /\ Loan.interest_rate loan
       = LoanEligibilityService.corrected_interest_rate verdict
    /\ LoanEligibilityService.calculate_monthly_installment
         (CreateLoanSerializer.loan_amount data)
         (LoanEligibilityService.corrected_interest_rate verdict)
         (CreateLoanSerializer.tenure data)
       = Ok (Loan.monthly_repayment loan)
    /\ Loan.emis_paid_on_time loan = 0%Z
    /\ Loan.start_date loan = today
    /\ Date.add_months (Loan.start_date loan) (CreateLoanSerializer.tenure data)
       = Ok (Loan.end_date loan).
Proof.
  unfold Views.create_loan.
  destruct (CreateLoanSerializer.is_valid db data); [|discriminate].
  destruct (LoanEligibilityService.check_eligibility _ _ _ _ _ _)
    as [v|e] eqn:Hv; cbn [bind]; [|discriminate].
  destruct (LoanEligibilityService.approval v) eqn:Ha; cbn [negb].
  2:{ intro H. injection H as <- <- <-. discriminate. }
  destruct (Customer_get db (CreateLoanSerializer.customer_id data))
    as [c|e] eqn:Hc.
  2:{ destruct e; try discriminate. intro H. injection H as <- <- <-.
      discriminate. }
  destruct (Date.add_months today (CreateLoanSerializer.tenure data))
    as [end_date|e] eqn:Hend; cbn [bind]; [|discriminate].
  cbn [Loan_create]. intro H. injection H as <- <- <-. intros _.
  destruct (check_eligibility_approved _ _ _ _ _ _ _ Hv Ha)
    as (c0 & score & Hc0 & _ & _ & Hemi).
  set (c' := Customer.with_current_debt c
               (Customer.current_debt c + CreateLoanSerializer.loan_amount data)).
  eexists c, c', v, _.
  repeat match goal with |- _ /\ _ => split end;
    try reflexivity; try assumption.
  - rewrite <- (Customer_get_id _ _ _ Hc).
    change (Customer.customer_id c) with (Customer.customer_id c').
    apply Customer_get_save.
  - apply (Customer_get_id _ _ _ Hc).
Qed.

Lemma loan_issuance_effects_witness :
  exists (c c' : Customer.t) (verdict : LoanEligibilityService.Verdict)
         (loan : Loan.t),
    LoanEligibilityService.check_eligibility db1 today1
      (CreateLoanSerializer.customer_id data1)
      (CreateLoanSerializer.loan_amount data1)
      (CreateLoanSerializer.interest_rate data1)
      (CreateLoanSerializer.tenure data1) = Ok verdict
    /\ LoanEligibilityService.approval verdict = true
    /\ Customer_get db1 (CreateLoanSerializer.customer_id data1) = Ok c
    /\ Customer_get db1_after (CreateLoanSerializer.customer_id data1) = Ok c'
    /\ Customer.current_debt c'
       = Customer.current_debt c + CreateLoanSerializer.loan_amount data1
    /\ loans db1_after = loans db1 ++ [loan]
    /\ Loan.customer loan = CreateLoanSerializer.customer_id data1
    /\ Loan.loan_amount loan = CreateLoanSerializer.loan_amount data1
    /\ Loan.tenure loan = CreateLoanSerializer.tenure data1
    /\ Loan.interest_rate loan
       = LoanEligibilityService.corrected_interest_rate verdict
    /\ LoanEligibilityService.calculate_monthly_installment
         (CreateLoanSerializer.loan_amount data1)
         (LoanEligibilityService.corrected_interest_rate verdict)
         (CreateLoanSerializer.tenure data1)
       = Ok (Loan.monthly_repayment loan)
    /\ Loan.emis_paid_on_time loan = 0%Z
    /\ Loan.start_date loan = today1
    /\ Date.add_months (Loan.start_date loan) (CreateLoanSerializer.tenure data1)
       = Ok (Loan.end_date loan).
Proof.
  apply (loan_issuance_effects db1 db1_after today1 data1 body1
           Views.HTTP_201_CREATED).
  - vm_compute. reflexivity.
  - reflexivity.
Defined.

(** ** Registration *)




(** ** Binary64 rounding keeps a quotient away from zero *)

Local Open Scope Z_scope.

Lemma digits2_pos_size (p : positive) : digits2_pos p = Pos.size p.
Proof. induction p; simpl; congruence. Qed.

Lemma Zdigits2_log2 (m : Z) : 0 < m -> Zdigits2 m = Z.log2 m + 1.
Proof.
  destruct m as [|p|p]; try lia. intros _. simpl.
  rewrite digits2_pos_size.
  destruct p; simpl; lia.
Qed.

Lemma shr_1_m (mrs : shr_record) :
  0 <= shr_m mrs -> shr_m (shr_1 mrs) = Z.div2 (shr_m mrs).
Proof.
  destruct mrs as [m r s]. simpl. intro H.
  destruct m as [|p|p]; try lia; [reflexivity|].
  destruct p; reflexivity.
Qed.

Lemma iter_pos_shr_1_m (p : positive) (mrs : shr_record) :
  0 <= shr_m mrs ->
  shr_m (iter_pos shr_1 p mrs) = Z.shiftr (shr_m mrs) (Zpos p).
Proof.
  revert mrs. induction p as [p IH|p IH|]; intros mrs H; simpl iter_pos.
  - assert (H1 : 0 <= shr_m (shr_1 mrs)).
    { rewrite shr_1_m by assumption. rewrite Z.div2_nonneg. exact H. }
    assert (H2 : 0 <= shr_m (iter_pos shr_1 p (shr_1 mrs))).
    { rewrite IH by assumption. now apply Z.shiftr_nonneg. }
    rewrite IH, IH, shr_1_m by assumption.
    rewrite Z.div2_spec, !Z.shiftr_shiftr by lia.
    f_equal. lia.
  - assert (H2 : 0 <= shr_m (iter_pos shr_1 p mrs)).
    { rewrite IH by assumption. now apply Z.shiftr_nonneg. }
    rewrite IH, IH by assumption.
    rewrite Z.shiftr_shiftr by lia. f_equal. lia.
  - rewrite shr_1_m by assumption. now rewrite Z.div2_spec.
Qed.

Lemma shr_m_e (mrs : shr_record) (e n : Z) :
  0 <= shr_m mrs ->
  shr_m (fst (shr mrs e n)) = Z.shiftr (shr_m mrs) (Z.max 0 n)
  /\ snd (shr mrs e n) = e + Z.max 0 n.
Proof.
  intro H. destruct n as [|p|p]; simpl.
  - split; [reflexivity|lia].
  - split; [now apply iter_pos_shr_1_m|lia].
  - split; [reflexivity|lia].
Qed.

Lemma shr_record_of_loc_m (m : Z) (l : location) :
  shr_m (shr_record_of_loc m l) = m.
Proof. destruct l as [|[| |]]; reflexivity. Qed.

Lemma round_nearest_even_ge (m : Z) (l : location) :
  m <= round_nearest_even m l.
Proof.
  destruct l as [|[| |]]; simpl; try lia. destruct (Z.even m); lia.
Qed.

Section Binary.
Variables prec emax : Z.
Hypothesis prec_pos : 0 < prec.

Lemma fexp_max (x : Z) :
  fexp prec emax x = Z.max (x - prec) (emin prec emax).
Proof. reflexivity. Qed.

(** A positive mantissa that lies above the underflow threshold is not
    rounded to zero. *)
Lemma shr_fexp_pos (m e : Z) (l : location) :
  0 < m -> emin prec emax - e <= Z.log2 m ->
  let r := shr_fexp prec emax m e l in
  0 < shr_m (fst r)
  /\ emin prec emax - snd r <= Z.log2 (shr_m (fst r)).
Proof.
  intros Hm Hlow r. subst r. unfold shr_fexp.
  set (k := fexp prec emax (Zdigits2 m + e) - e).
  destruct (shr_m_e (shr_record_of_loc m l) e k) as [E1 E2].
  { rewrite shr_record_of_loc_m. lia. }
  rewrite E1, E2, shr_record_of_loc_m.
  assert (Hk : Z.max 0 k <= Z.log2 m).
  { unfold k. rewrite fexp_max, Zdigits2_log2 by assumption.
    pose proof (Z.log2_nonneg m). lia. }
  rewrite Z.shiftr_div_pow2 by lia.
  assert (Hpow : 2 ^ Z.max 0 k <= m).
  { eapply Z.le_trans; [|apply Z.log2_spec; assumption].
    apply Z.pow_le_mono_r; lia. }
  assert (Hpos : 0 < m / 2 ^ Z.max 0 k).
  { apply Z.div_str_pos. split; [apply Z.pow_pos_nonneg; lia|exact Hpow]. }
  split; [exact Hpos|].
  rewrite <- Z.shiftr_div_pow2 by lia.
  rewrite Z.log2_shiftr by assumption.
  unfold k in *. rewrite fexp_max, Zdigits2_log2 in * by assumption. lia.
Qed.

Lemma binary_round_aux_nonzero (s : bool) (m e : Z) (l : location) :
  0 < m -> emin prec emax - e <= Z.log2 m ->
  forall s', binary_round_aux prec emax s m e l <> S754_zero s'.
Proof.
  intros Hm Hlow s'. unfold binary_round_aux.
  pose proof (shr_fexp_pos m e l Hm Hlow) as H1. cbv zeta in H1.
  destruct (shr_fexp prec emax m e l) as [mrs1 e1]. cbn [fst snd] in H1.
  destruct H1 as [Hm1 Hlow1].
  set (m2 := round_nearest_even (shr_m mrs1) (loc_of_shr_record mrs1)).
  assert (Hge : shr_m mrs1 <= m2) by apply round_nearest_even_ge.
  assert (Hm2 : 0 < m2) by lia.
  assert (Hlow2 : emin prec emax - e1 <= Z.log2 m2).
  { eapply Z.le_trans; [exact Hlow1|]. now apply Z.log2_le_mono. }
  pose proof (shr_fexp_pos m2 e1 loc_Exact Hm2 Hlow2) as H2. cbv zeta in H2.
  destruct (shr_fexp prec emax m2 e1 loc_Exact) as [mrs2 e2].
  cbn [fst snd] in H2. destruct H2 as [Hm3 _].
  destruct (shr_m mrs2) as [|p|p]; try lia.
  destruct (e2 <=? emax - prec); discriminate.
Qed.
End Binary.


Lemma pow2_digits (m : Z) :
  0 < m -> 2 ^ (Zdigits2 m - 1) <= m < 2 ^ Zdigits2 m.
Proof.
  intro H. rewrite Zdigits2_log2 by assumption.
  replace (Z.log2 m + 1 - 1) with (Z.log2 m) by lia.
  replace (Z.log2 m + 1) with (Z.succ (Z.log2 m)) by lia.
  now apply Z.log2_spec.
Qed.

(** The quotient of two positive integers at least 1/100 apart is far
    above the subnormal range. *)
Lemma SFdiv_core_binary_pos (n d : positive) :
  Zpos d <= 100 * Zpos n ->
  let '(q, e, _) :=
    SFdiv_core_binary Float.prec Float.emax (Zpos n) 0 (Zpos d) 0 in
  0 < q /\ emin Float.prec Float.emax <= e.
Proof.
  intro Hratio. unfold SFdiv_core_binary.
  pose proof (pow2_digits (Zpos n) eq_refl) as [Hn1 Hn2].
  pose proof (pow2_digits (Zpos d) eq_refl) as [Hd1 Hd2].
  set (d1 := Zdigits2 (Zpos n)) in *. set (d2 := Zdigits2 (Zpos d)) in *.
  assert (Hd1pos : 1 <= d1) by (unfold d1; simpl; lia).
  assert (Hd2pos : 1 <= d2) by (unfold d2; simpl; lia).
  assert (Hgap : d2 <= d1 + 7).
  { assert (H : 2 ^ (d2 - 1) < 2 ^ (d1 + 7)).
    { rewrite Z.pow_add_r by lia. change (2 ^ 7) with 128. lia. }
    apply Z.pow_lt_mono_r_iff in H; lia. }
  rewrite fexp_max. unfold emin, Float.prec, Float.emax.
  replace (Z.min (Z.max (d1 + 0 - (d2 + 0) - 53) (3 - 1024 - 53)) (0 - 0))
    with (Z.min (d1 - d2 - 53) 0) by lia.
  set (e := Z.min (d1 - d2 - 53) 0).
  replace (0 - 0 - e) with (- e) by lia.
  set (m' := match - e with
             | 0 => Z.pos n
             | Z.pos _ => Z.shiftl (Z.pos n) (- e)
             | Z.neg _ => 0
             end).
  assert (Hm' : m' = Zpos n * 2 ^ (- e)).
  { unfold m'. destruct (- e) as [|p|p] eqn:E; try lia.
    now rewrite Z.shiftl_mul_pow2. }
  assert (Hbig : Zpos d <= m').
  { rewrite Hm'.
    assert (H : 2 ^ d2 <= 2 ^ (d1 - 1) * 2 ^ (- e)).
    { rewrite <- Z.pow_add_r by lia. apply Z.pow_le_mono_r; lia. }
    assert (0 < 2 ^ (- e)) by (apply Z.pow_pos_nonneg; lia).
    nia. }
  pose proof (Z.div_le_lower_bound m' (Zpos d) 1 eq_refl) as Hq.
  unfold Z.div in Hq.
  destruct (Z.div_eucl m' (Z.pos d)) as [q r].
  split; lia.
Qed.

Lemma of_Q_nonzero (q : Q) :
  (1 # 100 <= q)%Q -> Float.is_zero (Float.of_Q q) = false.
Proof.
  destruct q as [n d]. unfold Qle, Float.of_Q. cbn [Qnum Qden]. intro H.
  destruct n as [|n|n]; try lia.
  unfold SFdiv.
  pose proof (SFdiv_core_binary_pos n d) as Hcore.
  destruct (SFdiv_core_binary Float.prec Float.emax (Z.pos n) 0 (Z.pos d) 0)
    as [[mz ez] lz].
  destruct Hcore as [Hmz Hez]; [lia|].
  pose proof (binary_round_aux_nonzero Float.prec Float.emax eq_refl
                (xorb false false) mz ez lz Hmz) as Hnz.
  destruct (binary_round_aux Float.prec Float.emax (xorb false false) mz ez lz);
    try reflexivity.
  exfalso. eapply Hnz; [|reflexivity].
  pose proof (Z.log2_nonneg mz). lia.
Qed.

Local Close Scope Z_scope.

(** ** The volume ratio *)

(** A positive amount held in a column of two decimals is at least a cent. *)
Lemma positive_two_places (q : Q) :
  0 < q -> Dec.field_valid 12 2 None q = true -> 1 # 100 <= q.
Proof.
  intros Hpos. unfold Dec.field_valid.
  rewrite !andb_true_iff. intros [[Hint _] _].
  apply Qeq_bool_iff in Hint.
  set (k := Qfloor (q * inject_Z (10 ^ 2))) in Hint.
  change (inject_Z (10 ^ 2)) with 100 in Hint.
  assert (Hk : (0 < k)%Z).
  { rewrite Zlt_Qlt, <- Hint. change (inject_Z 0) with 0. lra. }
  assert (Hk1 : inject_Z 1 <= inject_Z k) by (rewrite <- Zle_Qle; lia).
  rewrite <- Hint in Hk1. change (inject_Z 1) with 1 in Hk1. lra.
Qed.

Lemma Qsum_nonneg (l : list Q) :
  (forall y, In y l -> 0 <= y) -> 0 <= Qsum l.
Proof.
  induction l as [|y l IH]; intro H; simpl; [apply Qle_refl|].
  assert (0 <= y) by (apply H; now left).
  assert (0 <= Qsum l) by (apply IH; intros z Hz; apply H; now right).
  lra.
Qed.

Lemma Qsum_lower_bound (l : list Q) (x : Q) :
  0 <= x -> (forall y, In y l -> x <= y) -> l <> [] -> x <= Qsum l.
Proof.
  intros Hx H Hne. destruct l as [|y l]; [congruence|]. simpl.
  assert (x <= y) by (apply H; now left).
  assert (0 <= Qsum l).
  { apply Qsum_nonneg. intros z Hz.
    eapply Qle_trans; [exact Hx|]. apply H. now right. }
  lra.
Qed.

(** C10.  When every loan of the customer has a positive loan amount (a
    value of the two-decimal column), [calculate_credit_score] never raises
    [ZeroDivisionError]: with approved limit 0 and at least one loan the
    overextension guard returns 0 first, and whenever the guard is passed
    with at least one loan the approved limit is positive and its float is
    not zero. *)
Theorem volume_ratio_never_divides_by_zero
        (db : Db) (today : Date.date) (c : Customer.t) :
  (forall l, In l (Loan_filter_customer db c) ->
             0 < Loan.loan_amount l
             /\ Dec.field_valid 12 2 None (Loan.loan_amount l) = true) ->
  CreditScoreCalculator.calculate_credit_score db today c
  <> Raise ZeroDivisionError
  /\ (Loan_filter_customer db c <> [] ->
      Customer.approved_limit c == 0 ->
      CreditScoreCalculator.calculate_credit_score db today c = Ok (Num.Int 0))
  /\ (Loan_filter_customer db c <> [] ->
      Dec.gt (or_Decimal (Sum_Decimal Loan.loan_amount (Loan_filter_customer db c)))
             (Customer.approved_limit c) = false ->
      0 < Customer.approved_limit c
      /\ Float.is_zero (Float.of_Q (Customer.approved_limit c)) = false).
Proof.
  intro Hpos.
  set (rows := Loan_filter_customer db c) in *.
  assert (Hcent : rows <> [] -> 1 # 100 <= Qsum (map Loan.loan_amount rows)).
  { intro Hne. apply Qsum_lower_bound.
    - discriminate.
    - intros y Hy. apply in_map_iff in Hy. destruct Hy as (l & <- & Hl).
      destruct (Hpos l Hl) as [H0 Hcol]. now apply positive_two_places.
    - destruct rows; [congruence|discriminate]. }
  assert (Hlimit : rows <> [] ->
                   Dec.gt (or_Decimal (Sum_Decimal Loan.loan_amount rows))
                          (Customer.approved_limit c) = false ->
                   1 # 100 <= Customer.approved_limit c).
  { intros Hne Hguard. apply Dec_gt_false in Hguard.
    rewrite or_Decimal_Sum in Hguard.
    eapply Qle_trans; [apply Hcent, Hne|exact Hguard]. }
  split; [|split].
  - unfold CreditScoreCalculator.calculate_credit_score. fold rows.
    destruct rows as [|l rows'] eqn:Erows; [discriminate|].
    cbn [exists_ negb].
    destruct (Dec.gt _ (Customer.approved_limit c)) eqn:Hguard; [discriminate|].
    destruct (count (l :: rows') =? 0)%Z; [discriminate|].
    unfold Float.int_truediv.
    assert (Hmax : (Z.max (or_int (Sum_int Loan.tenure (l :: rows'))) 1 =? 0)%Z
                   = false) by (apply Z.eqb_neq; lia).
    rewrite Hmax.
    destruct (Float.is_finite _); cbn [bind]; [|discriminate].
    unfold Float.div.
    rewrite (of_Q_nonzero (Customer.approved_limit c)).
    + cbn [bind]. discriminate.
    + apply Hlimit; [discriminate|reflexivity].
  - intros Hne Hzero.
    apply over_limit_scores_zero; [exact Hne|].
    fold rows. rewrite Hzero. specialize (Hcent Hne). lra.
  - intros Hne Hguard. specialize (Hlimit Hne Hguard). split.
    + lra.
    + now apply of_Q_nonzero.
Qed.

Lemma volume_ratio_never_divides_by_zero_witness :
  CreditScoreCalculator.calculate_credit_score db_history today1 customer1
  <> Raise ZeroDivisionError
  /\ (Loan_filter_customer db_history customer1 <> [] ->
      Customer.approved_limit customer1 == 0 ->
      CreditScoreCalculator.calculate_credit_score db_history today1 customer1
      = Ok (Num.Int 0))
  /\ (Loan_filter_customer db_history customer1 <> [] ->
      Dec.gt (or_Decimal (Sum_Decimal Loan.loan_amount
                            (Loan_filter_customer db_history customer1)))
             (Customer.approved_limit customer1) = false ->
      0 < Customer.approved_limit customer1
      /\ Float.is_zero (Float.of_Q (Customer.approved_limit customer1)) = false).
Proof.
  apply (volume_ratio_never_divides_by_zero db_history today1 customer1).
  intros l [<-|[]]. split; vm_compute; reflexivity.
Defined.

(** ** Instalment rounding *)

(** C3.  At principal 99999.90, rate 0 and tenure 12 the exact quotient is
    8333.325, which rounds half-up to 8333.33; the binary64 quotient prints
    as 8333.324999999999 and [calculate_monthly_installment] returns
    8333.32.  The same happens at principal 0.15 and tenure 6 (0.02 for
    0.025). *)
Theorem zero_rate_installment_below_half_up :
  LoanEligibilityService.calculate_monthly_installment (9999990 # 100) 0 12
  = Ok (833332 # 100)
  /\ (9999990 # 100) / 12 == 8333325 # 1000
  /\ Dec.quantize ((9999990 # 100) / 12) (1 # 100) = Ok (833333 # 100)
  /\ LoanEligibilityService.calculate_monthly_installment (15 # 100) 0 6
     = Ok (2 # 100)
  /\ Dec.quantize ((15 # 100) / 6) (1 # 100) = Ok (3 # 100).
Proof.
  repeat split; vm_compute; reflexivity.
Qed.


(** * Further properties of the engine *)

(** ** Score range *)

Lemma Num_lt_le (a b : Num.number) : Num.lt a b = true -> Num.le a b = true.
Proof.
  unfold Num.lt, Num.le. destruct (Num.compare a b) as [[| |]|]; congruence.
Qed.

(** Clamping by [min(100, max(0, t))] lands in [0, 100], NaN included. *)
Lemma Num_clamp_range (t : Num.number) :
  let r := Num.min (Num.Int 100) (Num.max (Num.Int 0) t) in
  Num.le (Num.Int 0) r = true /\ Num.le r (Num.Int 100) = true.
Proof.
  unfold Num.min, Num.max, Num.gt.
  destruct (Num.lt (Num.Int 0) t) eqn:E0.
  - destruct (Num.lt t (Num.Int 100)) eqn:E1.
    + split; now apply Num_lt_le.
    + split; reflexivity.
  - split; reflexivity.
Qed.

(** X1.  Whenever [calculate_credit_score] returns, the score lies between
    0 and 100, both included. *)
Theorem credit_score_in_range
        (db : Db) (today : Date.date) (c : Customer.t) (score : Num.number) :
  CreditScoreCalculator.calculate_credit_score db today c = Ok score ->
  Num.le (Num.Int 0) score = true /\ Num.le score (Num.Int 100) = true.
Proof.
  unfold CreditScoreCalculator.calculate_credit_score.
  destruct (negb (exists_ (Loan_filter_customer db c)));
    [intro H; injection H as <-; split; reflexivity|].
  destruct (Dec.gt _ _); [intro H; injection H as <-; split; reflexivity|].
  destruct (count _ =? 0)%Z; [intro H; injection H as <-; split; reflexivity|].
  destruct (Float.int_truediv _ _) as [ratio|e]; cbn [bind]; [|discriminate].
  destruct (Float.div _ _) as [volume|e]; cbn [bind]; [|discriminate].
  intro H; injection H as <-. apply Num_clamp_range.
Qed.

Lemma credit_score_in_range_witness :
  Num.le (Num.Int 0) (Num.Flt (S754_finite false 8319149311670500 (-47))) = true
  /\ Num.le (Num.Flt (S754_finite false 8319149311670500 (-47))) (Num.Int 100)
     = true.
Proof.
  apply (credit_score_in_range db_history today1 customer1).
  vm_compute. reflexivity.
Defined.

(** ** Shape of a verdict *)

Lemma corrected_rate_ge (score : Num.number) (r : Q) :
  r <= LoanEligibilityService.get_corrected_interest_rate score r.
Proof.
  unfold LoanEligibilityService.get_corrected_interest_rate.
  destruct (Num.gt score (Num.Int 50)); [apply Dec_max_ge_l|].
  destruct (Num.gt score (Num.Int 30)); [apply Dec_max_ge_l|].
  destruct (Num.gt score (Num.Int 10)); [apply Dec_max_ge_l|].
  apply Qle_refl.
Qed.

(** The cases of [check_eligibility] for a stored customer, once score and
    instalment are computed. *)
Lemma check_eligibility_cases
      (db : Db) (today : Date.date) (customer_id : Z)
      (loan_amount interest_rate : Dec.Decimal) (tenure : Z)
      (v : LoanEligibilityService.Verdict) :
  LoanEligibilityService.check_eligibility
    db today customer_id loan_amount interest_rate tenure = Ok v ->
  (Customer_get db customer_id = Raise DoesNotExist
   /\ v = {| LoanEligibilityService.approval := false;
             LoanEligibilityService.message := "Customer not found";
             LoanEligibilityService.interest_rate := interest_rate;
             LoanEligibilityService.corrected_interest_rate := interest_rate;
             LoanEligibilityService.monthly_installment := 0 |})
  \/ exists (c : Customer.t) (score : Num.number) (emi : Dec.Decimal),
      Customer_get db customer_id = Ok c
      /\ CreditScoreCalculator.calculate_credit_score db today c = Ok score
      /\ LoanEligibilityService.calculate_monthly_installment
           loan_amount
           (LoanEligibilityService.get_corrected_interest_rate
              score interest_rate)
           tenure = Ok emi
      /\ LoanEligibilityService.interest_rate v = interest_rate
      /\ LoanEligibilityService.corrected_interest_rate v
         = LoanEligibilityService.get_corrected_interest_rate
             score interest_rate
      /\ ((Num.le score (Num.Int 10) = true
           /\ LoanEligibilityService.approval v = false
           /\ LoanEligibilityService.message v
              = "Credit score too low for loan approval"%string
           /\ LoanEligibilityService.monthly_installment v = 0)
          \/ (Num.le score (Num.Int 10) = false
              /\ Customer.monthly_salary c * (1 # 2)
                 < Qsum (map Loan.monthly_repayment
                             (filter (fun l => Date.leb today (Loan.end_date l))
                                     (Loan_filter_customer db c)))
                   + emi
              /\ LoanEligibilityService.approval v = false
              /\ LoanEligibilityService.message v
                 = "Total EMI would exceed 50% of monthly salary"%string
              /\ LoanEligibilityService.monthly_installment v = 0)
          \/ (Num.le score (Num.Int 10) = false
              /\ Qsum (map Loan.monthly_repayment
                           (filter (fun l => Date.leb today (Loan.end_date l))
                                   (Loan_filter_customer db c)))
                 + emi <= Customer.monthly_salary c * (1 # 2)
              /\ ((Num.gt score (Num.Int 10) = true
                   /\ LoanEligibilityService.approval v = true
                   /\ LoanEligibilityService.message v
                      = (if Num.gt score (Num.Int 50)
                         then "Loan approved"
                         else "Loan approved with corrected interest rate")%string
                   /\ LoanEligibilityService.monthly_installment v = emi)
                  \/ (Num.gt score (Num.Int 10) = false
                      /\ LoanEligibilityService.approval v = false
                      /\ LoanEligibilityService.message v
                         = "Credit score too low for loan approval"%string
                      /\ LoanEligibilityService.monthly_installment v = 0)))).
Proof.
  unfold LoanEligibilityService.check_eligibility.
  destruct (Customer_get db customer_id) as [c|e] eqn:Hc.
  2:{ rewrite (Customer_get_only_DoesNotExist _ _ _ Hc).
      intro H; injection H as <-. left. split; reflexivity. }
  destruct (CreditScoreCalculator.calculate_credit_score db today c)
    as [score|e] eqn:Hs; cbn [bind]; [|discriminate].
  destruct (LoanEligibilityService.calculate_monthly_installment _ _ _)
    as [emi|e] eqn:He; cbn [bind]; [|discriminate].
  intro H. right. exists c, score, emi.
  assert (E : (5 # 10) == (1 # 2)) by reflexivity.
  destruct (Num.le score (Num.Int 10)) eqn:L10.
  { injection H as <-. repeat split; try reflexivity; try assumption. left. repeat split. }
  destruct (Dec.gt _ _) eqn:G.
  { injection H as <-. repeat split; try reflexivity; try assumption.
    right; left. repeat split.
    apply Dec_gt_true in G.
    rewrite or_Decimal_Sum, current_loans_filter, E in G. exact G. }
  apply Dec_gt_false in G.
  rewrite or_Decimal_Sum, current_loans_filter, E in G.
  destruct (Num.gt score (Num.Int 50)) eqn:G50.
  { injection H as <-. repeat split; try reflexivity; try assumption.
    right; right. split; [reflexivity|]. split; [exact G|]. left.
    repeat split. apply Num_gt_int_trans with (n := 50%Z); [lia|exact G50]. }
  destruct (Num.gt score (Num.Int 30)) eqn:G30.
  { rewrite (corrected_rate_floor_12 _ _ G50 G30) in H.
    injection H as <-. repeat split; try reflexivity; try assumption.
    right; right. split; [reflexivity|]. split; [exact G|]. left.
    repeat split. apply Num_gt_int_trans with (n := 30%Z); [lia|exact G30]. }
  destruct (Num.gt score (Num.Int 10)) eqn:G10.
  { rewrite (corrected_rate_floor_16 _ _ G50 G30 G10) in H.
    injection H as <-. repeat split; try reflexivity; try assumption.
    right; right. split; [reflexivity|]. split; [exact G|]. left.
    repeat split. }
  injection H as <-. repeat split; try reflexivity; try assumption.
  right; right. split; [reflexivity|]. split; [exact G|]. right.
  repeat split.
Qed.

(** Every verdict repeats the request and never lowers the rate. *)
Lemma verdict_shape_helper
      (db : Db) (today : Date.date) (customer_id : Z)
      (loan_amount interest_rate : Dec.Decimal) (tenure : Z)
      (v : LoanEligibilityService.Verdict) :
  LoanEligibilityService.check_eligibility
    db today customer_id loan_amount interest_rate tenure = Ok v ->
  LoanEligibilityService.interest_rate v = interest_rate
  /\ interest_rate <= LoanEligibilityService.corrected_interest_rate v.
Proof.
  intro Hv. apply check_eligibility_cases in Hv.
  destruct Hv as [[_ ->]|(c & score & emi & _ & _ & _ & Hr & Hcr & _)].
  - cbn. split; [reflexivity|apply Qle_refl].
  - split; [exact Hr|]. rewrite Hcr. apply corrected_rate_ge.
Qed.

(** X2.  Every verdict repeats the requested rate, reports a corrected rate
    that is at least the requested one, and carries instalment 0 when it is
    a rejection. *)
Theorem verdict_echoes_request
        (db : Db) (today : Date.date) (customer_id : Z)
        (loan_amount interest_rate : Dec.Decimal) (tenure : Z)
        (v : LoanEligibilityService.Verdict) :
  LoanEligibilityService.check_eligibility
    db today customer_id loan_amount interest_rate tenure = Ok v ->
  LoanEligibilityService.interest_rate v = interest_rate
  /\ interest_rate <= LoanEligibilityService.corrected_interest_rate v
  /\ (LoanEligibilityService.approval v = false ->
      LoanEligibilityService.monthly_installment v = 0).
Proof.
  intro Hv. apply check_eligibility_cases in Hv.
  destruct Hv as [[_ ->]|(c & score & emi & _ & _ & _ & Hr & Hcr & Hcase)].
  - cbn. repeat split. apply Qle_refl.
  - split; [exact Hr|]. split; [rewrite Hcr; apply corrected_rate_ge|].
    intro Hrej.
    destruct Hcase as [(_ & _ & _ & H0)|[(_ & _ & _ & _ & H0)|(_ & _ & Hin)]];
      try exact H0.
    destruct Hin as [(_ & Ha & _)|(_ & _ & _ & H0)]; [congruence|exact H0].
Qed.

Lemma verdict_echoes_request_witness :
  let v := {| LoanEligibilityService.approval := false;
              LoanEligibilityService.message :=
                "Total EMI would exceed 50% of monthly salary";
              LoanEligibilityService.interest_rate := 8;
              LoanEligibilityService.corrected_interest_rate := 8;
              LoanEligibilityService.monthly_installment := 0 |} in
  LoanEligibilityService.interest_rate v = 8
  /\ 8 <= LoanEligibilityService.corrected_interest_rate v
  /\ (LoanEligibilityService.approval v = false ->
      LoanEligibilityService.monthly_installment v = 0).
Proof.
  intro v.
  apply (verdict_echoes_request db_running today1 1 10000 8 12 v).
  vm_compute. reflexivity.
Defined.

(** X3.  An approval is never given beyond the affordability limit: for an
    approving verdict the customer exists, scores above 10, the monthly
    repayments of the loans still running plus the reported instalment stay
    within half the salary, and the reported instalment is the one computed
    at the corrected rate. *)
Theorem approval_is_affordable
        (db : Db) (today : Date.date) (customer_id : Z)
        (loan_amount interest_rate : Dec.Decimal) (tenure : Z)
        (v : LoanEligibilityService.Verdict) :
  LoanEligibilityService.check_eligibility
    db today customer_id loan_amount interest_rate tenure = Ok v ->
  LoanEligibilityService.approval v = true ->
  exists (c : Customer.t) (score : Num.number),
    Customer_get db customer_id = Ok c
    /\ CreditScoreCalculator.calculate_credit_score db today c = Ok score
    /\ Num.gt score (Num.Int 10) = true
    /\ Qsum (map Loan.monthly_repayment
                (filter (fun l => Date.leb today (Loan.end_date l))
                        (Loan_filter_customer db c)))
       + LoanEligibilityService.monthly_installment v
       <= Customer.monthly_salary c * (1 # 2)
    /\ LoanEligibilityService.calculate_monthly_installment
         loan_amount (LoanEligibilityService.corrected_interest_rate v) tenure
       = Ok (LoanEligibilityService.monthly_installment v).
Proof.
  intros Hv Ha. apply check_eligibility_cases in Hv.
  destruct Hv as [[_ ->]|(c & score & emi & Hc & Hs & He & _ & Hcr & Hcase)];
    [discriminate|].
  destruct Hcase as [(_ & Hr & _)|[(_ & _ & Hr & _)|(_ & Hfit & Hin)]];
    try congruence.
  destruct Hin as [(G10 & _ & _ & Hemi)|(_ & Hr & _)]; [|congruence].
  exists c, score. rewrite Hemi, Hcr. auto.
Qed.

Lemma approval_is_affordable_witness :
  let v := {| LoanEligibilityService.approval := true;
              LoanEligibilityService.message :=
                "Loan approved with corrected interest rate";
              LoanEligibilityService.interest_rate := 105 # 10;
              LoanEligibilityService.corrected_interest_rate := 12;
              LoanEligibilityService.monthly_installment := 888488 # 100 |} in
  exists (c : Customer.t) (score : Num.number),
    Customer_get db1 1 = Ok c
    /\ CreditScoreCalculator.calculate_credit_score db1 today1 c = Ok score
    /\ Num.gt score (Num.Int 10) = true
    /\ Qsum (map Loan.monthly_repayment
                (filter (fun l => Date.leb today1 (Loan.end_date l))
                        (Loan_filter_customer db1 c)))
       + LoanEligibilityService.monthly_installment v
       <= Customer.monthly_salary c * (1 # 2)
    /\ LoanEligibilityService.calculate_monthly_installment
         100000 (LoanEligibilityService.corrected_interest_rate v) 12
       = Ok (LoanEligibilityService.monthly_installment v).
Proof.
  intro v.
  apply (approval_is_affordable db1 today1 1 100000 (105 # 10) 12 v).
  - vm_compute. reflexivity.
  - reflexivity.
Defined.

(** X4.  A customer whose loan amounts sum above the approved limit is
    never approved: every verdict for such a customer is the rejection
    "Credit score too low for loan approval", with instalment 0 and the
    requested rate left uncorrected. *)
Theorem overextended_never_approved
        (db : Db) (today : Date.date) (customer_id : Z)
        (loan_amount interest_rate : Dec.Decimal) (tenure : Z)
        (c : Customer.t) (v : LoanEligibilityService.Verdict) :
  Customer_get db customer_id = Ok c ->
  Loan_filter_customer db c <> [] ->
  Customer.approved_limit c
  < Qsum (map Loan.loan_amount (Loan_filter_customer db c)) ->
  LoanEligibilityService.check_eligibility
    db today customer_id loan_amount interest_rate tenure = Ok v ->
  v = {| LoanEligibilityService.approval := false;
         LoanEligibilityService.message :=
           "Credit score too low for loan approval";
         LoanEligibilityService.interest_rate := interest_rate;
         LoanEligibilityService.corrected_interest_rate := interest_rate;
         LoanEligibilityService.monthly_installment := 0 |}.
Proof.
  intros Hc Hne Hover.
  pose proof (over_limit_scores_zero db today c Hne Hover) as Hs.
  unfold LoanEligibilityService.check_eligibility.
  rewrite Hc; cbn [bind]. rewrite Hs; cbn [bind].
  change (LoanEligibilityService.get_corrected_interest_rate
            (Num.Int 0) interest_rate) with interest_rate.
  destruct (LoanEligibilityService.calculate_monthly_installment _ _ _);
    cbn [bind]; [|discriminate].
  change (Num.le (Num.Int 0) (Num.Int 10)) with true. cbv iota.
  intro H. now injection H as <-.
Qed.

Lemma overextended_never_approved_witness :
  {| LoanEligibilityService.approval := false;
     LoanEligibilityService.message :=
       "Credit score too low for loan approval";
     LoanEligibilityService.interest_rate := 8;
     LoanEligibilityService.corrected_interest_rate := 8;
     LoanEligibilityService.monthly_installment := 0 |}
  = {| LoanEligibilityService.approval := false;
       LoanEligibilityService.message :=
         "Credit score too low for loan approval";
       LoanEligibilityService.interest_rate := 8;
       LoanEligibilityService.corrected_interest_rate := 8;
       LoanEligibilityService.monthly_installment := 0 |}.
Proof.
  apply (overextended_never_approved db_over today1 1 10000 8 12 customer1).
  - reflexivity.
  - vm_compute. discriminate.
  - vm_compute. reflexivity.
  - vm_compute. reflexivity.
Defined.

(** X5.  A verdict is an approval exactly when its message is one of the
    two approval messages. *)
Theorem approval_iff_message
        (db : Db) (today : Date.date) (customer_id : Z)
        (loan_amount interest_rate : Dec.Decimal) (tenure : Z)
        (v : LoanEligibilityService.Verdict) :
  LoanEligibilityService.check_eligibility
    db today customer_id loan_amount interest_rate tenure = Ok v ->
  (LoanEligibilityService.approval v = true <->
   LoanEligibilityService.message v = "Loan approved"%string
   \/ LoanEligibilityService.message v
      = "Loan approved with corrected interest rate"%string).
Proof.
  intro Hv. apply check_eligibility_cases in Hv.
  destruct Hv as [[_ ->]|(c & score & emi & _ & _ & _ & _ & _ & Hcase)].
  - cbn. split; [discriminate|intros [H|H]; discriminate].
  - destruct Hcase
      as [(_ & Ha & Hm & _)|[(_ & _ & Ha & Hm & _)|(_ & _ & Hin)]].
    + rewrite Ha, Hm. split; [discriminate|intros [H|H]; discriminate].
    + rewrite Ha, Hm. split; [discriminate|intros [H|H]; discriminate].
    + destruct Hin as [(_ & Ha & Hm & _)|(_ & Ha & Hm & _)]; rewrite Ha, Hm.
      * split; [intros _|reflexivity].
        destruct (Num.gt score (Num.Int 50)); [now left|now right].
      * split; [discriminate|intros [H|H]; discriminate].
Qed.

Lemma approval_iff_message_witness :
  let v := {| LoanEligibilityService.approval := true;
              LoanEligibilityService.message :=
                "Loan approved with corrected interest rate";
              LoanEligibilityService.interest_rate := 105 # 10;
              LoanEligibilityService.corrected_interest_rate := 12;
              LoanEligibilityService.monthly_installment := 888488 # 100 |} in
  LoanEligibilityService.approval v = true <->
  LoanEligibilityService.message v = "Loan approved"%string
  \/ LoanEligibilityService.message v
     = "Loan approved with corrected interest rate"%string.
Proof.
  intro v.
  apply (approval_iff_message db1 today1 1 100000 (105 # 10) 12 v).
  vm_compute. reflexivity.
Defined.


(** X6.  A customer scoring above 50 who asks for a rate [r >= 0] and can
    afford the instalment gets the plain "Loan approved" at the requested
    rate itself, with the instalment computed at that rate. *)
Theorem high_score_keeps_requested_rate
        (db : Db) (today : Date.date) (customer_id : Z)
        (loan_amount interest_rate : Dec.Decimal) (tenure : Z)
        (c : Customer.t) (score : Num.number) (emi : Dec.Decimal) :
  Customer_get db customer_id = Ok c ->
  CreditScoreCalculator.calculate_credit_score db today c = Ok score ->
  Num.gt score (Num.Int 50) = true ->
  0 <= interest_rate ->
  LoanEligibilityService.calculate_monthly_installment
    loan_amount interest_rate tenure = Ok emi ->
  Qsum (map Loan.monthly_repayment
            (filter (fun l => Date.leb today (Loan.end_date l))
                    (Loan_filter_customer db c)))
  + emi <= Customer.monthly_salary c * (1 # 2) ->
  LoanEligibilityService.check_eligibility
    db today customer_id loan_amount interest_rate tenure
  = Ok {| LoanEligibilityService.approval := true;
          LoanEligibilityService.message := "Loan approved";
          LoanEligibilityService.interest_rate := interest_rate;
          LoanEligibilityService.corrected_interest_rate := interest_rate;
          LoanEligibilityService.monthly_installment := emi |}.
Proof.
  intros Hc Hs G50 Hr He Hfit.
  assert (Hcr : LoanEligibilityService.get_corrected_interest_rate
                  score interest_rate = interest_rate).
  { unfold LoanEligibilityService.get_corrected_interest_rate, Dec.max.
    rewrite G50.
    assert (G : Dec.gt 0 interest_rate = false) by now apply Dec_gt_false.
    now rewrite G. }
  unfold LoanEligibilityService.check_eligibility.
  rewrite Hc; cbn [bind]. rewrite Hs; cbn [bind]. rewrite Hcr, He; cbn [bind].
  assert (G10 : Num.gt score (Num.Int 10) = true).
  { apply Num_gt_int_trans with (n := 50%Z); [lia|exact G50]. }
  rewrite (Num_gt_not_le _ _ G10).
  assert (G : Dec.gt
                (or_Decimal (Sum_Decimal Loan.monthly_repayment
                               (LoanEligibilityService.current_loans db today c))
                 + emi)
                (Customer.monthly_salary c * (5 # 10)) = false).
  { apply Dec_gt_false. rewrite or_Decimal_Sum, current_loans_filter.
    assert (E : (5 # 10) == (1 # 2)) by reflexivity.
    rewrite E. exact Hfit. }
  now rewrite G, G50.
Qed.

Lemma high_score_keeps_requested_rate_witness :
  LoanEligibilityService.check_eligibility db_history today1 1 10000 8 12
  = Ok {| LoanEligibilityService.approval := true;
          LoanEligibilityService.message := "Loan approved";
          LoanEligibilityService.interest_rate := 8;
          LoanEligibilityService.corrected_interest_rate := 8;
          LoanEligibilityService.monthly_installment := 86988 # 100 |}.
Proof.
  apply (high_score_keeps_requested_rate db_history today1 1 10000 8 12
           customer1 (Num.Flt (S754_finite false 8319149311670500 (-47)))).
  - reflexivity.
  - vm_compute. reflexivity.
  - vm_compute. reflexivity.
  - vm_compute. discriminate.
  - vm_compute. reflexivity.
  - vm_compute. discriminate.
Defined.

(** ** Rate correction and instalment *)

Lemma Dec_max_idempotent (a b : Q) : Dec.max (Dec.max a b) b = Dec.max a b.
Proof.
  unfold Dec.max at 1.
  assert (G : Dec.gt b (Dec.max a b) = false).
  { apply Dec_gt_false, Dec_max_ge_r. }
  now rewrite G.
Qed.

(** X7.  Correcting a corrected rate changes nothing: a request resubmitted
    at the corrected rate is corrected to that same rate. *)
Theorem corrected_rate_idempotent (score : Num.number) (r : Dec.Decimal) :
  LoanEligibilityService.get_corrected_interest_rate
    score (LoanEligibilityService.get_corrected_interest_rate score r)
  = LoanEligibilityService.get_corrected_interest_rate score r.
Proof.
  unfold LoanEligibilityService.get_corrected_interest_rate.
  destruct (Num.gt score (Num.Int 50)); [apply Dec_max_idempotent|].
  destruct (Num.gt score (Num.Int 30)); [apply Dec_max_idempotent|].
  destruct (Num.gt score (Num.Int 10)); [apply Dec_max_idempotent|].
  reflexivity.
Qed.

(** X8.  With tenure 0 [calculate_monthly_installment] raises
    [ZeroDivisionError] for every amount and every rate: at rate 0 by the
    division by the tenure, otherwise by a denominator that is the zeroth
    power of [1 + r], less 1. *)
Theorem zero_tenure_raises (loan_amount interest_rate : Dec.Decimal) :
  LoanEligibilityService.calculate_monthly_installment
    loan_amount interest_rate 0
  = Raise ZeroDivisionError.
Proof.
  unfold LoanEligibilityService.calculate_monthly_installment.
  unfold Float.div at 1.
  change (Float.is_zero (Float.of_Z (12 * 100))) with false. cbv iota.
  cbn [bind].
  destruct (Float.is_zero _).
  - reflexivity.
  - unfold Float.pow.
    change (Float.of_int 0) with (Ok (S754_zero false)). cbn [bind].
    change (0 =? 0)%Z with true. cbv iota. cbn [bind].
    reflexivity.
Qed.



(** ** Keys and lookups *)

Lemma next_key_above (keys : list Z) (k : Z) :
  In k keys -> (k < next_key keys)%Z.
Proof.
  unfold next_key. induction keys as [|x keys IH]; simpl; [tauto|].
  intros [->|H]; [lia|]. specialize (IH H). lia.
Qed.

Lemma next_key_fresh (keys : list Z) : ~ In (next_key keys) keys.
Proof. intro H. apply next_key_above in H. lia. Qed.

Lemma find_app (A : Type) (p : A -> bool) (l l' : list A) :
  find p (l ++ l')
  = match find p l with Some x => Some x | None => find p l' end.
Proof.
  induction l as [|x l IH]; simpl; [reflexivity|].
  destruct (p x); [reflexivity|exact IH].
Qed.

Lemma find_absent (A : Type) (p : A -> bool) (l : list A) :
  (forall x, In x l -> p x = false) -> find p l = None.
Proof.
  induction l as [|x l IH]; simpl; intro H; [reflexivity|].
  rewrite (H x) by now left. apply IH. intros y Hy. apply H. now right.
Qed.

Lemma Customer_exists_get (db : Db) (id : Z) :
  Customer_exists db id = true -> exists c, Customer_get db id = Ok c.
Proof.
  unfold Customer_exists, Customer_get. intro H.
  apply existsb_exists in H. destruct H as (c & Hin & Hc).
  destruct (find _ (customers db)) as [c0|] eqn:E; [now exists c0|].
  exfalso. pose proof (find_none _ _ E c Hin) as F. cbv beta in F.
  congruence.
Qed.

(** ** Registration and the storage *)

Lemma registration_create_inv
      (db db' : Db) (data : CustomerRegistrationSerializer.data)
      (c : Customer.t) :
  CustomerRegistrationSerializer.create db data = Ok (db', c) ->
  Customer.customer_id c = next_key (map Customer.customer_id (customers db))
  /\ Customer.phone_number c
     = CustomerRegistrationSerializer.phone_number data
  /\ Customer.monthly_salary c
     = CustomerRegistrationSerializer.monthly_income data
  /\ Customer.current_debt c = 0
  /\ customers db' = customers db ++ [c]
  /\ loans db' = loans db.
Proof.
  unfold CustomerRegistrationSerializer.create.
  destruct (CustomerRegistrationSerializer.create_approved_limit _);
    cbn [bind]; [|discriminate].
  intro H. injection H as <- <-. cbn. repeat split.
Qed.



(** X10.  Registration stores the new customer under a key no stored
    customer has, with no debt and the declared income as salary; the new
    customer can be read back, every customer stored before reads as
    before, and no loan is touched. *)
Theorem registration_round_trip
        (db db' : Db) (data : CustomerRegistrationSerializer.data)
        (c : Customer.t) :
  CustomerRegistrationSerializer.create db data = Ok (db', c) ->
  ~ In (Customer.customer_id c) (map Customer.customer_id (customers db))
  /\ Customer_get db' (Customer.customer_id c) = Ok c
  /\ Customer.current_debt c = 0
  /\ Customer.monthly_salary c
     = CustomerRegistrationSerializer.monthly_income data
  /\ loans db' = loans db
  /\ forall (id : Z) (c0 : Customer.t),
      Customer_get db id = Ok c0 -> Customer_get db' id = Ok c0.
Proof.
  intro H. apply registration_create_inv in H.
  destruct H as (Hid & _ & Hsal & Hdebt & Hcs & Hls).
  assert (Hfresh : ~ In (Customer.customer_id c)
                     (map Customer.customer_id (customers db))).
  { rewrite Hid. apply next_key_fresh. }
  repeat split; try assumption.
  - unfold Customer_get. rewrite Hcs, find_app.
    rewrite find_absent.
    + simpl. now rewrite Z.eqb_refl.
    + intros x Hx. apply Z.eqb_neq. intro E. apply Hfresh. rewrite <- E.
      now apply in_map.
  - intros id c0. unfold Customer_get. rewrite Hcs, find_app.
    destruct (find _ (customers db)); [tauto|discriminate].
Qed.

Lemma registration_round_trip_witness :
  ~ In (Customer.customer_id customer_jane)
       (map Customer.customer_id (customers db1))
  /\ Customer_get db1_registered (Customer.customer_id customer_jane)
     = Ok customer_jane
  /\ Customer.current_debt customer_jane = 0
  /\ Customer.monthly_salary customer_jane
     = CustomerRegistrationSerializer.monthly_income registration1
  /\ loans db1_registered = loans db1
  /\ forall (id : Z) (c0 : Customer.t),
      Customer_get db1 id = Ok c0 -> Customer_get db1_registered id = Ok c0.
Proof.
  apply (registration_round_trip db1 db1_registered registration1
           customer_jane).
  vm_compute. reflexivity.
Defined.

(** X11.  Once a customer is registered, [validate_phone_number] refuses
    the phone number just used, and treats every other number as it did
    before the registration. *)
Theorem registered_phone_is_refused
        (db db' : Db) (data : CustomerRegistrationSerializer.data)
        (c : Customer.t) :
  CustomerRegistrationSerializer.create db data = Ok (db', c) ->
  CustomerRegistrationSerializer.validate_phone_number
    db' (CustomerRegistrationSerializer.phone_number data)
  = CustomerRegistrationSerializer.ValidationError
      "Phone number already exists."
  /\ forall value : Z,
      value <> CustomerRegistrationSerializer.phone_number data ->
      CustomerRegistrationSerializer.validate_phone_number db' value
      = CustomerRegistrationSerializer.validate_phone_number db value.
Proof.
  intro H. apply registration_create_inv in H.
  destruct H as (_ & Hphone & _ & _ & Hcs & _).
  unfold CustomerRegistrationSerializer.validate_phone_number.
  rewrite Hcs. split.
  - rewrite existsb_app. simpl. rewrite Hphone, Z.eqb_refl.
    now rewrite !orb_true_r.
  - intros value Hvalue. rewrite existsb_app. simpl.
    assert (E : (Customer.phone_number c =? value)%Z = false).
    { apply Z.eqb_neq. congruence. }
    now rewrite E, !orb_false_r.
Qed.

Lemma registered_phone_is_refused_witness :
  CustomerRegistrationSerializer.validate_phone_number
    db1_registered
    (CustomerRegistrationSerializer.phone_number registration1)
  = CustomerRegistrationSerializer.ValidationError
      "Phone number already exists."
  /\ forall value : Z,
      value <> CustomerRegistrationSerializer.phone_number registration1 ->
      CustomerRegistrationSerializer.validate_phone_number db1_registered value
      = CustomerRegistrationSerializer.validate_phone_number db1 value.
Proof.
  apply (registered_phone_is_refused db1 db1_registered registration1
           customer_jane).
  vm_compute. reflexivity.
Defined.

Lemma NoDup_snoc (A : Type) (l : list A) (x : A) :
  NoDup l -> ~ In x l -> NoDup (l ++ [x]).
Proof.
  induction 1 as [|y l Hy Hl IH]; simpl; intro Hx.
  - constructor; [tauto|constructor].
  - constructor.
    + rewrite in_app_iff. simpl. intros [H|[H|[]]]; [tauto|].
      apply Hx. now left.
    + apply IH. tauto.
Qed.

(** X12.  Registration keeps the storage well formed: keys stay unique and
    every loan still points to a stored customer. *)
Theorem registration_preserves_wf
        (db db' : Db) (data : CustomerRegistrationSerializer.data)
        (c : Customer.t) :
  Db_wf db ->
  CustomerRegistrationSerializer.create db data = Ok (db', c) ->
  Db_wf db'.
Proof.
  intros (Hc & Hl & Hfk) H. apply registration_create_inv in H.
  destruct H as (Hid & _ & _ & _ & Hcs & Hls).
  unfold Db_wf. rewrite Hcs, Hls, map_app. simpl. repeat split.
  - apply NoDup_snoc; [exact Hc|]. rewrite Hid. apply next_key_fresh.
  - exact Hl.
  - eapply Forall_impl; [|exact Hfk]. intros l Hex. cbv beta in *.
    unfold Customer_exists in *. rewrite Hcs, existsb_app, Hex.
    reflexivity.
Qed.

Lemma registration_preserves_wf_witness : Db_wf db1_registered.
Proof.
  apply (registration_preserves_wf db1 db1_registered registration1
           customer_jane).
  - repeat split; simpl.
    + constructor; [simpl; tauto|constructor].
    + constructor.
    + constructor.
  - vm_compute. reflexivity.
Defined.

(** ** Loan issuance and the storage *)

(** The two outcomes of [create_loan]: the storage as it was, with an
    answer that issues nothing, or one loan issued. *)
Lemma create_loan_inv
      (db db' : Db) (today : Date.date) (data : CreateLoanSerializer.data)
      (resp : Views.Response) :
  Views.create_loan db today data = Ok (db', resp) ->
  (db' = db
   /\ (resp = Views.Response_errors Views.HTTP_400_BAD_REQUEST
       \/ exists v : LoanEligibilityService.Verdict,
           LoanEligibilityService.approval v = false
           /\ resp = Views.Response_data
                       {| Views.loan_id := None;
                          Views.customer_id :=
                            CreateLoanSerializer.customer_id data;
                          Views.loan_approved := false;
                          Views.message := LoanEligibilityService.message v;
                          Views.monthly_installment := None |}
                       Views.HTTP_200_OK))
  \/ exists (c : Customer.t) (v : LoanEligibilityService.Verdict)
            (end_date : Date.date),
      CreateLoanSerializer.is_valid db data = true
      /\ Customer_get db (CreateLoanSerializer.customer_id data) = Ok c
      /\ LoanEligibilityService.check_eligibility db today
           (CreateLoanSerializer.customer_id data)
           (CreateLoanSerializer.loan_amount data)
           (CreateLoanSerializer.interest_rate data)
           (CreateLoanSerializer.tenure data) = Ok v
      /\ LoanEligibilityService.approval v = true
      /\ Date.add_months today (CreateLoanSerializer.tenure data) = Ok end_date
      /\ db' = Customer_save
                 (fst (Loan_create db c
                         (CreateLoanSerializer.loan_amount data)
                         (CreateLoanSerializer.tenure data)
                         (LoanEligibilityService.corrected_interest_rate v)
                         (LoanEligibilityService.monthly_installment v)
                         today end_date))
                 (Customer.with_current_debt c
                    (Customer.current_debt c
                     + CreateLoanSerializer.loan_amount data))
      /\ resp = Views.Response_data
                  {| Views.loan_id :=
                       Some (next_key (map Loan.loan_id (loans db)));
                     Views.customer_id := CreateLoanSerializer.customer_id data;
                     Views.loan_approved := true;
                     Views.message := "Loan approved successfully";
                     Views.monthly_installment :=
                       Some (LoanEligibilityService.monthly_installment v) |}
                  Views.HTTP_201_CREATED.
Proof.
  unfold Views.create_loan.
  destruct (CreateLoanSerializer.is_valid db data) eqn:Hvalid.
  2:{ intro H. injection H as <- <-. left. split; [reflexivity|now left]. }
  destruct (LoanEligibilityService.check_eligibility _ _ _ _ _ _)
    as [v|e] eqn:Hv; cbn [bind]; [|discriminate].
  destruct (LoanEligibilityService.approval v) eqn:Ha; cbn [negb].
  2:{ intro H. injection H as <- <-. left. split; [reflexivity|].
      right. exists v. split; [exact Ha|reflexivity]. }
  assert (Hex : exists c,
             Customer_get db (CreateLoanSerializer.customer_id data) = Ok c).
  { apply Customer_exists_get.
    unfold CreateLoanSerializer.is_valid in Hvalid.
    rewrite !andb_true_iff in Hvalid. tauto. }
  destruct Hex as [c Hc]. rewrite Hc.
  destruct (Date.add_months today (CreateLoanSerializer.tenure data))
    as [end_date|e] eqn:Hend; cbn [bind]; [|discriminate].
  cbn [Loan_create]. intro H. injection H as <- <-.
  right. exists c, v, end_date. repeat split; assumption.
Qed.

(** X13.  [create_loan] writes nothing unless it issues the loan: whenever
    the answer is not an approval, the storage is exactly what it was. *)
Theorem create_loan_rejection_writes_nothing
        (db db' : Db) (today : Date.date) (data : CreateLoanSerializer.data)
        (resp : Views.Response) :
  Views.create_loan db today data = Ok (db', resp) ->
  match resp with
  | Views.Response_data body _ => Views.loan_approved body = false
  | Views.Response_errors _ => True
  end ->
  db' = db.
Proof.
  intros H Hrej. apply create_loan_inv in H.
  destruct H as [[-> _]|(c & v & e & _ & _ & _ & _ & _ & _ & ->)];
    [reflexivity|discriminate].
Qed.

Lemma create_loan_rejection_writes_nothing_witness : db_running = db_running.
Proof.
  apply (create_loan_rejection_writes_nothing db_running db_running today1
           {| CreateLoanSerializer.customer_id := 1;
              CreateLoanSerializer.loan_amount := 10000;
              CreateLoanSerializer.interest_rate := 8;
              CreateLoanSerializer.tenure := 12 |}
           (Views.Response_data
              {| Views.loan_id := None;
                 Views.customer_id := 1;
                 Views.loan_approved := false;
                 Views.message := "Total EMI would exceed 50% of monthly salary";
                 Views.monthly_installment := None |}
              Views.HTTP_200_OK)).
  - vm_compute. reflexivity.
  - reflexivity.
Defined.

(** X14.  [create_loan] answers 400 exactly when the request fails
    validation.  A valid request is answered 200 with no loan id and no
    instalment when it is rejected, and 201 with the new loan id when the
    loan is issued; run on one state of the storage, the view never answers
    404 "Customer not found". *)
Theorem create_loan_answers
        (db db' : Db) (today : Date.date) (data : CreateLoanSerializer.data)
        (resp : Views.Response) :
  Views.create_loan db today data = Ok (db', resp) ->
  match resp with
  | Views.Response_errors status =>
      status = Views.HTTP_400_BAD_REQUEST
      /\ CreateLoanSerializer.is_valid db data = false
  | Views.Response_data body status =>
      CreateLoanSerializer.is_valid db data = true
      /\ ((status = Views.HTTP_200_OK
           /\ Views.loan_approved body = false
           /\ Views.loan_id body = None
           /\ Views.monthly_installment body = None)
          \/ (status = Views.HTTP_201_CREATED
              /\ Views.loan_approved body = true
              /\ Views.loan_id body
                 = Some (next_key (map Loan.loan_id (loans db)))
              /\ Views.message body = "Loan approved successfully"%string))
  end.
Proof.
  unfold Views.create_loan.
  destruct (CreateLoanSerializer.is_valid db data) eqn:Hvalid.
  2:{ intro H. injection H as _ <-. split; reflexivity. }
  destruct (LoanEligibilityService.check_eligibility _ _ _ _ _ _)
    as [v|e]; cbn [bind]; [|discriminate].
  destruct (negb (LoanEligibilityService.approval v)).
  { intro H. injection H as _ <-. split; [reflexivity|]. left. repeat split. }
  assert (Hex : exists c,
             Customer_get db (CreateLoanSerializer.customer_id data) = Ok c).
  { apply Customer_exists_get.
    unfold CreateLoanSerializer.is_valid in Hvalid.
    rewrite !andb_true_iff in Hvalid. tauto. }
  destruct Hex as [c Hc]. rewrite Hc.
  destruct (Date.add_months today (CreateLoanSerializer.tenure data));
    cbn [bind]; [|discriminate].
  cbn [Loan_create]. intro H. injection H as _ <-.
  split; [reflexivity|]. right. repeat split.
Qed.

Lemma create_loan_answers_witness :
  CreateLoanSerializer.is_valid db1 data1 = true
  /\ ((Views.HTTP_201_CREATED = Views.HTTP_200_OK
       /\ Views.loan_approved body1 = false
       /\ Views.loan_id body1 = None
       /\ Views.monthly_installment body1 = None)
      \/ (Views.HTTP_201_CREATED = Views.HTTP_201_CREATED
          /\ Views.loan_approved body1 = true
          /\ Views.loan_id body1
             = Some (next_key (map Loan.loan_id (loans db1)))
          /\ Views.message body1 = "Loan approved successfully"%string)).
Proof.
  apply (create_loan_answers db1 db1_after today1 data1
           (Views.Response_data body1 Views.HTTP_201_CREATED)).
  vm_compute. reflexivity.
Defined.



Lemma valid_loan_amount_positive (db : Db) (data : CreateLoanSerializer.data) :
  CreateLoanSerializer.is_valid db data = true ->
  1 # 100 <= CreateLoanSerializer.loan_amount data
  /\ (1 <= CreateLoanSerializer.tenure data <= 360)%Z.
Proof.
  unfold CreateLoanSerializer.is_valid, Dec.field_valid.
  rewrite !andb_true_iff. intros [[[[_ [_ Hmin]] _] Hlo] Hhi].
  split; [now apply Qle_bool_iff|]. lia.
Qed.



Lemma Customer_exists_ids (db : Db) (id : Z) :
  Customer_exists db id
  = existsb (fun k => k =? id)%Z (map Customer.customer_id (customers db)).
Proof.
  unfold Customer_exists. induction (customers db) as [|x l IH]; simpl;
    [reflexivity|]. now rewrite IH.
Qed.

Lemma Customer_get_exists (db : Db) (id : Z) (c : Customer.t) :
  Customer_get db id = Ok c -> Customer_exists db id = true.
Proof.
  unfold Customer_get, Customer_exists.
  destruct (find _ (customers db)) as [c0|] eqn:E; [|discriminate].
  intros _. apply find_some in E. apply existsb_exists. now exists c0.
Qed.

(** Saving a stored customer leaves the column of keys as it was. *)
Lemma Customer_save_ids (db : Db) (c : Customer.t) :
  Customer_exists db (Customer.customer_id c) = true ->
  map Customer.customer_id (customers (Customer_save db c))
  = map Customer.customer_id (customers db).
Proof.
  unfold Customer_exists, Customer_save; cbn [customers]. intros ->.
  induction (customers db) as [|x l IH]; simpl; [reflexivity|].
  rewrite IH. f_equal.
  destruct (Customer.customer_id x =? Customer.customer_id c)%Z eqn:E;
    [|reflexivity].
  apply Z.eqb_eq in E. congruence.
Qed.

(** X16.  [create_loan] keeps the storage well formed: customer keys and
    loan keys stay unique, and every loan, the new one included, points to
    a stored customer. *)
Theorem create_loan_preserves_wf
        (db db' : Db) (today : Date.date) (data : CreateLoanSerializer.data)
        (resp : Views.Response) :
  Db_wf db ->
  Views.create_loan db today data = Ok (db', resp) ->
  Db_wf db'.
Proof.
  intros Hwf H. apply create_loan_inv in H.
  destruct H as [[-> _]|(c & v & e & _ & Hc & _ & _ & _ & -> & _)];
    [exact Hwf|].
  destruct Hwf as (Hcs & Hls & Hfk).
  pose proof (Customer_get_exists _ _ _ Hc) as Hex.
  rewrite <- (Customer_get_id _ _ _ Hc) in Hex.
  set (db1 := fst (Loan_create db c _ _ _ _ today e)).
  set (c' := Customer.with_current_debt c _).
  assert (Hids : map Customer.customer_id (customers (Customer_save db1 c'))
                 = map Customer.customer_id (customers db)).
  { apply (Customer_save_ids db1 c'). exact Hex. }
  unfold Db_wf. rewrite Hids. split; [exact Hcs|]. split.
  - cbn. rewrite map_app. simpl. apply NoDup_snoc; [exact Hls|].
    apply next_key_fresh.
  - assert (Hsame : forall id, Customer_exists (Customer_save db1 c') id
                               = Customer_exists db id).
    { intro id. now rewrite !Customer_exists_ids, Hids. }
    cbn [loans Customer_save db1 Loan_create fst].
    apply Forall_app. split.
    + eapply Forall_impl; [|exact Hfk]. intros l Hl. cbv beta.
      now rewrite Hsame.
    + constructor; [|constructor]. cbn [Loan.customer].
      now rewrite Hsame.
Qed.

Lemma create_loan_preserves_wf_witness : Db_wf db1_after.
Proof.
  apply (create_loan_preserves_wf db1 db1_after today1 data1
           (Views.Response_data body1 Views.HTTP_201_CREATED)).
  - repeat split; simpl.
    + constructor; [simpl; tauto|constructor].
    + constructor.
    + constructor.
  - vm_compute. reflexivity.
Defined.

(** ** Reading loans back *)

Lemma Loan_get_new (db db2 : Db) (loan : Loan.t) :
  loans db2 = loans db ++ [loan] ->
  Loan.loan_id loan = next_key (map Loan.loan_id (loans db)) ->
  Loan_get db2 (next_key (map Loan.loan_id (loans db))) = Ok loan.
Proof.
  intros Hls Hid. unfold Loan_get. rewrite Hls, find_app, find_absent.
  - simpl. now rewrite Hid, Z.eqb_refl.
  - intros x Hx. apply Z.eqb_neq. intro E.
    apply (next_key_fresh (map Loan.loan_id (loans db))).
    rewrite <- E. now apply in_map.
Qed.

(** X17.  A loan that [create_loan] has issued can be read back with
    [view_loan] under the id of the answer: status 200, the requesting
    customer, the requested amount and tenure, the instalment of the
    answer, an interest rate that is at least the requested one, and
    [loan_approved] true. *)
Theorem issued_loan_can_be_viewed
        (db db' : Db) (today : Date.date) (data : CreateLoanSerializer.data)
        (body : Views.CreateLoanResponse) (status k : Z) :
  Views.create_loan db today data = Ok (db', Views.Response_data body status) ->
  Views.loan_id body = Some k ->
  exists detail : LoanDetailSerializer.data,
    Views.view_loan db' k = Ok (Views.Reply_data detail Views.HTTP_200_OK)
    /\ LoanDetailSerializer.loan_id detail = k
    /\ CustomerDetailSerializer.id (LoanDetailSerializer.customer detail)
       = CreateLoanSerializer.customer_id data
    /\ LoanDetailSerializer.loan_amount detail
       = CreateLoanSerializer.loan_amount data
    /\ LoanDetailSerializer.tenure detail = CreateLoanSerializer.tenure data
    /\ Some (LoanDetailSerializer.monthly_repayment detail)
       = Views.monthly_installment body
    /\ CreateLoanSerializer.interest_rate data
       <= LoanDetailSerializer.interest_rate detail
    /\ LoanDetailSerializer.loan_approved detail = true.
Proof.
  intros H Hk. apply create_loan_inv in H.
  destruct H as [[_ [H|(v & _ & H)]]
                |(c & v & e & _ & Hc & Hv & _ & _ & -> & H)].
  - discriminate.
  - injection H as -> _. discriminate.
  - injection H as -> _. cbn in Hk. injection Hk as <-.
    set (c' := Customer.with_current_debt c _).
    set (created := Loan_create db c _ _ _ _ today e).
    unfold Views.view_loan.
    rewrite (Loan_get_new db (Customer_save (fst created) c') (snd created)
               eq_refl eq_refl).
    unfold LoanDetailSerializer.to_representation.
    change (Loan.customer (snd created)) with (Customer.customer_id c').
    rewrite Customer_get_save. cbn [bind].
    eexists. split; [reflexivity|]. cbn.
    repeat split.
    + apply (Customer_get_id _ _ _ Hc).
    + destruct (verdict_shape_helper db today _ _ _ _ _ Hv) as [_ Hge].
      exact Hge.
Qed.

Lemma issued_loan_can_be_viewed_witness :
  exists detail : LoanDetailSerializer.data,
    Views.view_loan db1_after 1 = Ok (Views.Reply_data detail Views.HTTP_200_OK)
    /\ LoanDetailSerializer.loan_id detail = 1%Z
    /\ CustomerDetailSerializer.id (LoanDetailSerializer.customer detail)
       = CreateLoanSerializer.customer_id data1
    /\ LoanDetailSerializer.loan_amount detail
       = CreateLoanSerializer.loan_amount data1
    /\ LoanDetailSerializer.tenure detail = CreateLoanSerializer.tenure data1
    /\ Some (LoanDetailSerializer.monthly_repayment detail)
       = Views.monthly_installment body1
    /\ CreateLoanSerializer.interest_rate data1
       <= LoanDetailSerializer.interest_rate detail
    /\ LoanDetailSerializer.loan_approved detail = true.
Proof.
  apply (issued_loan_can_be_viewed db1 db1_after today1 data1 body1
           Views.HTTP_201_CREATED 1).
  - vm_compute. reflexivity.
  - reflexivity.
Defined.

(** On the day a loan of [n] months is issued, [n] repayments are left. *)
Lemma repayments_left_fresh
      (today e : Date.date) (n : Z) (l : Loan.t) :
  Date_valid today -> (0 <= n)%Z ->
  Date.add_months today n = Ok e ->
  Loan.end_date l = e ->
  Loan.repayments_left today l = n.
Proof.
  intros [Hm Hd] Hn Hadd Hend. unfold Loan.repayments_left. rewrite Hend.
  revert Hadd. unfold Date.add_months.
  set (total := (Date.month today - 1 + n)%Z).
  destruct (orb _ _); [discriminate|]. intro H. injection H as <-.
  unfold Date.leb. cbn [Date.year Date.month Date.day].
  pose proof (Z.div_mod total 12 ltac:(lia)) as Hdm.
  pose proof (Z.mod_pos_bound total 12 ltac:(lia)) as Hr.
  assert (Hq : (0 <= total / 12)%Z) by (apply Z.div_pos; lia).
  set (q := (total / 12)%Z) in *. set (r := (total mod 12)%Z) in *.
  assert (Hleb : (((Date.year today <? Date.year today + q)
                   || ((Date.year today =? Date.year today + q)
                       && ((Date.month today <? r + 1)
                           || ((Date.month today =? r + 1)
                               && (Date.day today
                                   <=? Z.min (Date.day today)
                                         (Date.days_in_month
                                            (Date.year today + q) (r + 1)))))))
                  = true)%Z).
  { destruct (Z.ltb_spec (Date.year today) (Date.year today + q));
      [reflexivity|].
    assert (q = 0%Z) by lia. subst total.
    replace (Date.year today + q)%Z with (Date.year today) by lia.
    rewrite Z.eqb_refl. cbn [orb andb].
    destruct (Z.ltb_spec (Date.month today) (r + 1)); [reflexivity|].
    assert (Hmr : (r + 1)%Z = Date.month today) by lia.
    rewrite Hmr, Z.eqb_refl. cbn [orb andb].
    apply Z.leb_le. lia. }
  rewrite Hleb. cbn [negb]. subst total. lia.
Qed.

(** X18.  [repayments_left] is never negative, is 0 for a loan whose end
    date has passed, and is the whole tenure on the day a loan is issued
    (end date = that day plus [n] months). *)
Theorem repayments_left_bounds (today : Date.date) (l : Loan.t) :
  (0 <= Loan.repayments_left today l)%Z
  /\ (Date.leb today (Loan.end_date l) = false ->
      Loan.repayments_left today l = 0%Z)
  /\ forall n : Z,
      Date_valid today -> (0 <= n)%Z ->
      Date.add_months today n = Ok (Loan.end_date l) ->
      Loan.repayments_left today l = n.
Proof.
  split; [|split].
  - unfold Loan.repayments_left. destruct (negb _); lia.
  - intro H. unfold Loan.repayments_left. now rewrite H.
  - intros n Hv Hn Hadd.
    now apply (repayments_left_fresh today (Loan.end_date l) n l).
Qed.

Lemma Loan_filter_customer_new
      (db db2 : Db) (c c' : Customer.t) (loan : Loan.t) :
  loans db2 = loans db ++ [loan] ->
  Customer.customer_id c' = Customer.customer_id c ->
  Loan.customer loan = Customer.customer_id c ->
  Loan_filter_customer db2 c' = Loan_filter_customer db c ++ [loan].
Proof.
  intros Hls Hid Hfk. unfold Loan_filter_customer.
  rewrite Hls, filter_app, Hid. simpl. now rewrite Hfk, Z.eqb_refl.
Qed.

(** X19.  After [create_loan] has issued a loan, the customer's loan list
    is the list as it was followed by one entry for the new loan: the id of
    the answer, the requested amount, the instalment of the answer and, on
    the day of issue, the whole tenure as repayments left. *)
Theorem issued_loan_is_listed
        (db db' : Db) (today : Date.date) (data : CreateLoanSerializer.data)
        (body : Views.CreateLoanResponse) (status k : Z) :
  Date_valid today ->
  Views.create_loan db today data = Ok (db', Views.Response_data body status) ->
  Views.loan_id body = Some k ->
  exists (before : list CustomerLoanListSerializer.data)
         (entry : CustomerLoanListSerializer.data),
    Views.view_customer_loans db today (CreateLoanSerializer.customer_id data)
    = Ok (Views.Reply_data before Views.HTTP_200_OK)
    /\ Views.view_customer_loans db' today
         (CreateLoanSerializer.customer_id data)
       = Ok (Views.Reply_data (before ++ [entry]) Views.HTTP_200_OK)
    /\ CustomerLoanListSerializer.loan_id entry = k
    /\ CustomerLoanListSerializer.loan_amount entry
       = CreateLoanSerializer.loan_amount data
    /\ Some (CustomerLoanListSerializer.monthly_installment entry)
       = Views.monthly_installment body
    /\ CustomerLoanListSerializer.repayments_left entry
       = CreateLoanSerializer.tenure data.
Proof.
  intros Htoday H Hk. apply create_loan_inv in H.
  destruct H as [[_ [H|(v & _ & H)]]
                |(c & v & e & Hvalid & Hc & Hv & _ & Hend & -> & H)].
  - discriminate.
  - injection H as -> _. discriminate.
  - injection H as -> _. cbn in Hk. injection Hk as <-.
    set (c' := Customer.with_current_debt c _).
    set (created := Loan_create db c _ _ _ _ today e).
    pose proof (Customer_get_id _ _ _ Hc) as Hid.
    assert (Hget : Customer_get (Customer_save (fst created) c')
                     (CreateLoanSerializer.customer_id data) = Ok c').
    { rewrite <- Hid. apply (Customer_get_save (fst created) c'). }
    unfold Views.view_customer_loans. rewrite Hc, Hget.
    rewrite (Loan_filter_customer_new db (Customer_save (fst created) c')
               c c' (snd created) eq_refl eq_refl eq_refl).
    rewrite map_app. cbn [map].
    eexists _, _. split; [reflexivity|]. split; [reflexivity|].
    cbn. repeat split.
    apply valid_loan_amount_positive in Hvalid. destruct Hvalid as [_ Ht].
    apply (repayments_left_fresh today e); [exact Htoday|lia|exact Hend|].
    reflexivity.
Qed.

Lemma issued_loan_is_listed_witness :
  exists (before : list CustomerLoanListSerializer.data)
         (entry : CustomerLoanListSerializer.data),
    Views.view_customer_loans db1 today1
      (CreateLoanSerializer.customer_id data1)
    = Ok (Views.Reply_data before Views.HTTP_200_OK)
    /\ Views.view_customer_loans db1_after today1
         (CreateLoanSerializer.customer_id data1)
       = Ok (Views.Reply_data (before ++ [entry]) Views.HTTP_200_OK)
    /\ CustomerLoanListSerializer.loan_id entry = 1%Z
    /\ CustomerLoanListSerializer.loan_amount entry
       = CreateLoanSerializer.loan_amount data1
    /\ Some (CustomerLoanListSerializer.monthly_installment entry)
       = Views.monthly_installment body1
    /\ CustomerLoanListSerializer.repayments_left entry
       = CreateLoanSerializer.tenure data1.
Proof.
  apply (issued_loan_is_listed db1 db1_after today1 data1 body1
           Views.HTTP_201_CREATED 1).
  - unfold Date_valid. vm_compute. repeat split; discriminate.
  - vm_compute. reflexivity.
  - reflexivity.
Defined.

Lemma repayments_left_bounds_witness :
  Loan.repayments_left today1 loan_issued = 12%Z.
Proof.
  apply (proj2 (proj2 (repayments_left_bounds today1 loan_issued)) 12%Z).
  - unfold Date_valid. vm_compute. repeat split; discriminate.
  - lia.
  - vm_compute. reflexivity.
Defined.

(** ** The eligibility view *)

(** X20.  The eligibility view answers 400 for a request that fails
    validation, in particular for a customer id that is not stored, and
    otherwise 200 with a body that repeats customer id, tenure and
    requested rate, reports a corrected rate at least the requested one,
    and carries instalment 0 whenever it is not an approval. *)
Theorem eligibility_view_answers
        (db : Db) (today : Date.date) (data : LoanEligibilitySerializer.data)
        (reply : Views.Reply LoanEligibilityResponseSerializer.data) :
  Views.check_eligibility db today data = Ok reply ->
  (~ In (LoanEligibilitySerializer.customer_id data)
        (map Customer.customer_id (customers db)) ->
   reply = Views.Reply_errors Views.HTTP_400_BAD_REQUEST)
  /\ match reply with
     | Views.Reply_errors status =>
         status = Views.HTTP_400_BAD_REQUEST
         /\ LoanEligibilitySerializer.is_valid db data = false
     | Views.Reply_data body status =>
         status = Views.HTTP_200_OK
         /\ LoanEligibilitySerializer.is_valid db data = true
         /\ LoanEligibilityResponseSerializer.customer_id body
            = LoanEligibilitySerializer.customer_id data
         /\ LoanEligibilityResponseSerializer.tenure body
            = LoanEligibilitySerializer.tenure data
         /\ LoanEligibilityResponseSerializer.interest_rate body
            = LoanEligibilitySerializer.interest_rate data
         /\ LoanEligibilitySerializer.interest_rate data
            <= LoanEligibilityResponseSerializer.corrected_interest_rate body
         /\ (LoanEligibilityResponseSerializer.approval body = false ->
             LoanEligibilityResponseSerializer.monthly_installment body = 0)
     end.
Proof.
  unfold Views.check_eligibility.
  destruct (LoanEligibilitySerializer.is_valid db data) eqn:Hvalid.
  - destruct (LoanEligibilityService.check_eligibility _ _ _ _ _ _)
      as [v|e] eqn:Hv; cbn [bind]; [|discriminate].
    intro H. injection H as <-. split.
    + intro Hnot. exfalso.
      unfold LoanEligibilitySerializer.is_valid,
        LoanEligibilitySerializer.validate_customer_id in Hvalid.
      rewrite !andb_true_iff in Hvalid.
      destruct Hvalid as [[[[Hex _] _] _] _].
      apply Customer_exists_get in Hex. destruct Hex as [c Hc].
      rewrite (Customer_get_absent _ _ Hnot) in Hc. discriminate.
    + cbn. destruct (verdict_shape_helper _ _ _ _ _ _ _ Hv) as [Hr Hge].
      repeat split; try assumption.
      intro Hrej. apply check_eligibility_cases in Hv.
      destruct Hv as [[_ ->]|(c & score & emi & _ & _ & _ & _ & _ & Hcase)];
        [reflexivity|].
      destruct Hcase
        as [(_ & _ & _ & H0)|[(_ & _ & _ & _ & H0)|(_ & _ & Hin)]];
        try exact H0.
      destruct Hin as [(_ & Ha & _)|(_ & _ & _ & H0)]; [congruence|exact H0].
  - intro H. injection H as <-. split; [reflexivity|]. split; reflexivity.
Qed.

Lemma eligibility_view_answers_witness :
  Views.Reply_errors Views.HTTP_400_BAD_REQUEST
  = (Views.Reply_errors Views.HTTP_400_BAD_REQUEST
     : Views.Reply LoanEligibilityResponseSerializer.data).
Proof.
  apply (proj1 (eligibility_view_answers db1 today1
                  {| LoanEligibilitySerializer.customer_id := 99999;
                     LoanEligibilitySerializer.loan_amount := 100000;
                     LoanEligibilitySerializer.interest_rate := 105 # 10;
                     LoanEligibilitySerializer.tenure := 12 |}
                  (Views.Reply_errors Views.HTTP_400_BAD_REQUEST)
                  eq_refl)).
  simpl. intros [H|[]]. discriminate H.
Defined.

(** ** The loan view *)

(** X21.  On a well-formed storage [view_loan] never raises: it answers
    404 exactly for the ids that no stored loan has, and otherwise 200
    with the loan of that id, its owner's key and [loan_approved] true. *)
Theorem view_loan_total (db : Db) (loan_id : Z) :
  Db_wf db ->
  (~ In loan_id (map Loan.loan_id (loans db))
   /\ Views.view_loan db loan_id
      = Ok (Views.Reply_errors Views.HTTP_404_NOT_FOUND))
  \/ exists (loan : Loan.t) (detail : LoanDetailSerializer.data),
      In loan (loans db)
      /\ Loan.loan_id loan = loan_id
      /\ Views.view_loan db loan_id
         = Ok (Views.Reply_data detail Views.HTTP_200_OK)
      /\ LoanDetailSerializer.loan_id detail = loan_id
      /\ CustomerDetailSerializer.id (LoanDetailSerializer.customer detail)
         = Loan.customer loan
      /\ LoanDetailSerializer.loan_amount detail = Loan.loan_amount loan
      /\ LoanDetailSerializer.interest_rate detail = Loan.interest_rate loan
      /\ LoanDetailSerializer.loan_approved detail = true.
Proof.
  intros (_ & _ & Hfk). unfold Views.view_loan, Loan_get.
  destruct (find _ (loans db)) as [loan|] eqn:E.
  - right. apply find_some in E. destruct E as [Hin Hid].
    apply Z.eqb_eq in Hid.
    rewrite Forall_forall in Hfk. specialize (Hfk loan Hin). cbv beta in Hfk.
    apply Customer_exists_get in Hfk. destruct Hfk as [c Hc].
    unfold LoanDetailSerializer.to_representation. rewrite Hc. cbn [bind].
    eexists loan, _. split; [exact Hin|]. split; [exact Hid|].
    split; [reflexivity|]. cbn. repeat split; try assumption.
    apply (Customer_get_id _ _ _ Hc).
  - left. split; [|reflexivity]. intro Hin.
    apply in_map_iff in Hin. destruct Hin as (l & Hl & Hin).
    pose proof (find_none _ _ E l Hin) as F. cbv beta in F.
    rewrite Hl, Z.eqb_refl in F. discriminate.
Qed.

Lemma view_loan_total_witness :
  (~ In 7%Z (map Loan.loan_id (loans db_history))
   /\ Views.view_loan db_history 7
      = Ok (Views.Reply_errors Views.HTTP_404_NOT_FOUND))
  \/ exists (loan : Loan.t) (detail : LoanDetailSerializer.data),
      In loan (loans db_history)
      /\ Loan.loan_id loan = 7%Z
      /\ Views.view_loan db_history 7
         = Ok (Views.Reply_data detail Views.HTTP_200_OK)
      /\ LoanDetailSerializer.loan_id detail = 7%Z
      /\ CustomerDetailSerializer.id (LoanDetailSerializer.customer detail)
         = Loan.customer loan
      /\ LoanDetailSerializer.loan_amount detail = Loan.loan_amount loan
      /\ LoanDetailSerializer.interest_rate detail = Loan.interest_rate loan
      /\ LoanDetailSerializer.loan_approved detail = true.
Proof.
  apply (view_loan_total db_history 7).
  repeat split; simpl.
  - constructor; [simpl; tauto|constructor].
  - constructor; [simpl; tauto|constructor].
  - constructor; [reflexivity|constructor].
Defined.

(** ** The loan list of a customer *)

(** X22.  [view_customer_loans] answers 404 for a customer id that is not
    stored.  For a stored customer it answers 200 with one entry per loan
    of that customer, in storage order; no entry has negative repayments
    left, and a loan whose end date has passed is still listed, with 0
    repayments left. *)
Theorem customer_loans_listing (db : Db) (today : Date.date) (id : Z) :
  (~ In id (map Customer.customer_id (customers db)) ->
   Views.view_customer_loans db today id
   = Ok (Views.Reply_errors Views.HTTP_404_NOT_FOUND))
  /\ forall c : Customer.t,
      Customer_get db id = Ok c ->
      exists entries : list CustomerLoanListSerializer.data,
        Views.view_customer_loans db today id
        = Ok (Views.Reply_data entries Views.HTTP_200_OK)
        /\ map CustomerLoanListSerializer.loan_id entries
           = map Loan.loan_id
               (filter (fun l => Loan.customer l =? id)%Z (loans db))
        /\ Forall (fun e => (0 <= CustomerLoanListSerializer.repayments_left e)%Z)
                  entries
        /\ forall loan : Loan.t,
            In loan (loans db) -> Loan.customer loan = id ->
            Date.leb today (Loan.end_date loan) = false ->
            exists e : CustomerLoanListSerializer.data,
              In e entries
              /\ CustomerLoanListSerializer.loan_id e = Loan.loan_id loan
              /\ CustomerLoanListSerializer.monthly_installment e
                 = Loan.monthly_repayment loan
              /\ CustomerLoanListSerializer.repayments_left e = 0%Z.
Proof.
  unfold Views.view_customer_loans. split.
  - intro H. now rewrite (Customer_get_absent _ _ H).
  - intros c Hc. rewrite Hc. pose proof (Customer_get_id _ _ _ Hc) as Hid.
    unfold Loan_filter_customer. rewrite Hid.
    eexists. split; [reflexivity|]. split; [|split].
    + rewrite map_map. reflexivity.
    + apply Forall_forall. intros e He. apply in_map_iff in He.
      destruct He as (l & <- & _). cbn.
      unfold Loan.repayments_left. destruct (negb _); lia.
    + intros loan Hin Hfk Hended.
      exists (CustomerLoanListSerializer.to_representation today loan).
      split.
      * apply in_map. apply filter_In. split; [exact Hin|].
        now apply Z.eqb_eq.
      * cbn. repeat split. unfold Loan.repayments_left. now rewrite Hended.
Qed.

Lemma customer_loans_listing_witness :
  exists e : CustomerLoanListSerializer.data,
    CustomerLoanListSerializer.loan_id e = Loan.loan_id loan_paid
    /\ CustomerLoanListSerializer.monthly_installment e
       = Loan.monthly_repayment loan_paid
    /\ CustomerLoanListSerializer.repayments_left e = 0%Z.
Proof.
  destruct (proj2 (customer_loans_listing db_history today1 1) customer1 eq_refl)
    as (entries & _ & _ & _ & Hended).
  destruct (Hended loan_paid) as (e & _ & He).
  - simpl. now left.
  - reflexivity.
  - vm_compute. reflexivity.
  - now exists e.
Defined.
